(** * EVI time series over Sentinel-2 imagery: a model of [A4/geoFunctions.py]

    The script is a client of the Earth Engine service.  The Python
    functions are embedded as Rocq functions; the engine they call is an
    in-memory reference model whose spatial machinery (geometry
    intersection, region statistics, reducers) stays abstract in the class
    [Engine]. *)

From stdpp Require Import gmap strings list.
From Stdlib Require Import QArith Qround Ascii.

Local Open Scope string_scope.
Local Open Scope Z_scope.

(** ** Python values, exceptions and results *)

(** The exceptions the script can see: the two [ValueError]s it raises
    itself, the [KeyError] of a failed dict subscript, and the
    [ee.EEException] of the client library. *)
Inductive exn : Type :=
| ValueError (msg : string)
| KeyError (key : string)
| EEException (msg : string).

Inductive pyresult (A : Type) : Type :=
| Ok (a : A)
| Raise (e : exn).
Arguments Ok {A} a.
Arguments Raise {A} e.

#[global] Instance pyresult_ret : MRet pyresult := @Ok.
#[global] Instance pyresult_bind : MBind pyresult := fun A B f r =>
  match r with
  | Ok a => f a
  | Raise e => Raise e
  end.

(** JSON scalars as Python sees them: [None], a number, a string. *)
Inductive pyval : Type :=
| PNone
| PNum (q : Q)
| PStr (s : string).

(** ** Calendar dates

    The service keeps instants as milliseconds since 1970-01-01 UTC and
    pandas as nanoseconds; both exchange the text form YYYY-MM-DD.  Days
    are converted with the usual proleptic Gregorian era arithmetic. *)

Definition days_from_civil (y m d : Z) : Z :=
  let y := if m <=? 2 then y - 1 else y in
  let era := y / 400 in
  let yoe := y - era * 400 in
  let mp := if 2 <? m then m - 3 else m + 9 in
  let doy := (153 * mp + 2) / 5 + d - 1 in
  let doe := yoe * 365 + yoe / 4 - yoe / 100 + doy in
  era * 146097 + doe - 719468.

Definition civil_from_days (z : Z) : Z * Z * Z :=
  let z := z + 719468 in
  let era := z / 146097 in
  let doe := z - era * 146097 in
  let yoe := (doe - doe / 1460 + doe / 36524 - doe / 146096) / 365 in
  let doy := doe - (365 * yoe + yoe / 4 - yoe / 100) in
  let mp := (5 * doy + 2) / 153 in
  let d := doy - (153 * mp + 2) / 5 + 1 in
  let m := if mp <? 10 then mp + 3 else mp - 9 in
  let y := yoe + era * 400 in
  (if m <=? 2 then y + 1 else y, m, d).

Definition is_leap (y : Z) : bool :=
  (y mod 4 =? 0) && (negb (y mod 100 =? 0) || (y mod 400 =? 0)).

Definition days_in_month (y m : Z) : Z :=
  if m =? 2 then (if is_leap y then 29 else 28)
  else if (m =? 4) || (m =? 6) || (m =? 9) || (m =? 11) then 30
  else 31.

Definition digit_of_ascii (c : ascii) : option Z :=
  let n := Z.of_nat (nat_of_ascii c) in
  if (48 <=? n) && (n <=? 57) then Some (n - 48) else None.

Fixpoint number_of_digits (acc : Z) (s : string) : option Z :=
  match s with
  | EmptyString => Some acc
  | String c rest =>
      match digit_of_ascii c with
      | Some d => number_of_digits (10 * acc + d) rest
      | None => None
      end
  end.

(** The fields of a ten-character [YYYY-MM-DD] text, when it names a day. *)
Definition parse_ymd (s : string) : option (Z * Z * Z) :=
  if negb (Nat.eqb (String.length s) 10) then None
  else if negb (String.eqb (String.substring 4 1 s) "-" && String.eqb (String.substring 7 1 s) "-") then None
  else
    match number_of_digits 0 (String.substring 0 4 s),
          number_of_digits 0 (String.substring 5 2 s),
          number_of_digits 0 (String.substring 8 2 s) with
    | Some y, Some m, Some d =>
        if (1 <=? m) && (m <=? 12) && (1 <=? d) && (d <=? days_in_month y m)
        then Some (y, m, d) else None
    | _, _, _ => None
    end.

Definition ascii_of_digit (d : Z) : ascii :=
  ascii_of_nat (Z.to_nat (48 + d mod 10)).

(** [n] written with exactly [width] decimal digits (the low ones). *)
Fixpoint zero_pad (width : nat) (n : Z) (acc : string) : string :=
  match width with
  | O => acc
  | S w => zero_pad w (n / 10) (String (ascii_of_digit n) acc)
  end.

Definition format_ymd (y m d : Z) : string :=
  zero_pad 4 y (String "-" (zero_pad 2 m (String "-" (zero_pad 2 d EmptyString)))).

Definition millis_per_day : Z := 86400000.
Definition nanos_per_day : Z := 86400000000000.

(** ** The engine: images, collections, computed objects *)

Definition Pixel : Type := (Z * Z)%type.

(** A band is a raster; a pixel is masked (no data) where it is [None]. *)
Definition Raster : Type := Pixel -> option Q.

Inductive Reducer : Type := RMean | RMedian | RSum | RMin | RMax.

(** Arithmetic expressions of [ee.Image.expression]. *)
Inductive expr : Type :=
| EConst (q : Q)
| EVar (x : string)
| EAdd (a b : expr)
| ESub (a b : expr)
| EMul (a b : expr)
| EDiv (a b : expr).

(** The text of an expression: numbers, variables, the four operators and
    parentheses, with the usual precedence and left association. *)
Inductive token : Type :=
| TNum (q : Q)
| TId (x : string)
| TPlus | TMinus | TStar | TSlash
| TLParen | TRParen.

Inductive lexeme : Type :=
| LNothing
| LInt (n : Z)
| LFrac (n : Z) (scale : positive)
| LId (x : string).

Definition is_letter (c : ascii) : bool :=
  let n := Z.of_nat (nat_of_ascii c) in
  ((65 <=? n) && (n <=? 90)) || ((97 <=? n) && (n <=? 122)) || (n =? 95).

Definition flush (l : lexeme) : list token :=
  match l with
  | LNothing => []
  | LInt n => [TNum (inject_Z n)]
  | LFrac n scale => [TNum (n # scale)]
  | LId x => [TId x]
  end.

Definition symbol (c : ascii) : option (list token) :=
  if Ascii.eqb c "+" then Some [TPlus]
  else if Ascii.eqb c "-" then Some [TMinus]
  else if Ascii.eqb c "*" then Some [TStar]
  else if Ascii.eqb c "/" then Some [TSlash]
  else if Ascii.eqb c "(" then Some [TLParen]
  else if Ascii.eqb c ")" then Some [TRParen]
  else if Ascii.eqb c " " then Some []
  else None.

Fixpoint lex (l : lexeme) (s : string) : option (list token) :=
  match s with
  | EmptyString => Some (flush l)
  | String c rest =>
      match digit_of_ascii c, l with
      | Some d, LNothing => lex (LInt d) rest
      | Some d, LInt n => lex (LInt (10 * n + d)) rest
      | Some d, LFrac n scale => lex (LFrac (10 * n + d) (10 * scale)) rest
      | Some d, LId x => lex (LId (x +:+ String c EmptyString)) rest
      | None, _ =>
          if is_letter c then
            match l with
            | LNothing => lex (LId (String c EmptyString)) rest
            | LId x => lex (LId (x +:+ String c EmptyString)) rest
            | _ => None
            end
          else if Ascii.eqb c "." then
            match l with
            | LInt n => lex (LFrac n 1) rest
            | _ => None
            end
          else
            sym ← symbol c;
            ts ← lex LNothing rest;
            Some (flush l ++ sym ++ ts)%list
      end
  end.

Fixpoint parse_sum (fuel : nat) (ts : list token) {struct fuel} : option (expr * list token) :=
  match fuel with
  | O => None
  | S fuel =>
      let atom (ts : list token) : option (expr * list token) :=
        match ts with
        | TNum q :: rest => Some (EConst q, rest)
        | TId x :: rest => Some (EVar x, rest)
        | TLParen :: rest =>
            match parse_sum fuel rest with
            | Some (e, TRParen :: rest') => Some (e, rest')
            | _ => None
            end
        | _ => None
        end in
      let fix factors (n : nat) (acc : expr) (ts : list token) {struct n} :=
        match n, ts with
        | S n, TStar :: rest => '(e, rest') ← atom rest; factors n (EMul acc e) rest'
        | S n, TSlash :: rest => '(e, rest') ← atom rest; factors n (EDiv acc e) rest'
        | _, _ => Some (acc, ts)
        end in
      let product (ts : list token) :=
        '(e, rest) ← atom ts; factors (length ts) e rest in
      let fix terms (n : nat) (acc : expr) (ts : list token) {struct n} :=
        match n, ts with
        | S n, TPlus :: rest => '(e, rest') ← product rest; terms n (EAdd acc e) rest'
        | S n, TMinus :: rest => '(e, rest') ← product rest; terms n (ESub acc e) rest'
        | _, _ => Some (acc, ts)
        end in
      '(e, rest) ← product ts; terms (length ts) e rest
  end.

Definition parse_expression (text : string) : option expr :=
  ts ← lex LNothing text;
  match parse_sum (S (length ts)) ts with
  | Some (e, []) => Some e
  | _ => None
  end.

(** What the script leaves to the service. *)
Class Engine : Type := {
  (** [ee.Geometry] *)
  Geometry : Type;
  (** the test behind [filterBounds] *)
  intersects : Geometry -> Geometry -> bool;
  (** a reducer over the unmasked inputs of one pixel; [None] is no data *)
  reduce_values : Reducer -> list Q -> option Q;
  (** a reducer over the pixels of a region at a scale; [None] is no data *)
  region_reduce : Reducer -> Raster -> Geometry -> Z -> option Q;
  (** the name the service gives to the band an expression produces *)
  expression_band : expr -> string;
  (** the metadata an expression result keeps from the image it is evaluated on *)
  expression_properties : gmap string pyval -> gmap string pyval;
  (** whether a feature property whose value is null reaches the client as
      [None], or is left out of the feature *)
  null_properties : bool
}.

Record ImageData `{Engine} : Type := {
  bands : list (string * Raster);
  properties : gmap string pyval;
  (** [None]: the image is unbounded (a composite) *)
  footprint : option Geometry
}.

Record FeatureData `{Engine} : Type := {
  geometry : option Geometry;
  feature_properties : gmap string pyval
}.

(** A client-side handle stands for a value the service computes on
    demand; a request that cannot be computed is an error that surfaces
    when the handle is fetched. *)
Inductive computed (A : Type) : Type :=
| Val (a : A)
| Err (msg : string).
Arguments Val {A} a.
Arguments Err {A} msg.

#[global] Instance computed_ret : MRet computed := @Val.
#[global] Instance computed_bind : MBind computed := fun A B f c =>
  match c with
  | Val a => f a
  | Err msg => Err msg
  end.

Definition Image `{Engine} : Type := computed ImageData.
Definition ImageCollection `{Engine} : Type := computed (list ImageData).
Definition Feature `{Engine} : Type := computed FeatureData.
Definition FeatureCollection `{Engine} : Type := computed (list FeatureData).

(** Pixel arithmetic: a masked operand masks the result, and so does a
    division by zero. *)
Definition pixel_op (f : Q -> Q -> Q) (a b : option Q) : option Q :=
  match a, b with
  | Some x, Some y => Some (f x y)
  | _, _ => None
  end.

Definition pixel_div (a b : option Q) : option Q :=
  match a, b with
  | Some x, Some y => if Qeq_bool y 0 then None else Some (x / y)%Q
  | _, _ => None
  end.

Module EE.
Section ops.
Context `{Engine}.

Fixpoint find_band (name : string) (bs : list (string * Raster)) : option Raster :=
  match bs with
  | [] => None
  | (n, r) :: rest => if decide (n = name) then Some r else find_band name rest
  end.

(** [image.select(band)] *)
Definition select (image : Image) (band : string) : Image :=
  d ← image;
  match find_band band (bands d) with
  | Some r => Val {| bands := [(band, r)];
                     properties := properties d;
                     footprint := footprint d |}
  | None => Err "Image.select: pattern did not match any bands"
  end.

(** [image.rename(name)], one new name for the one band *)
Definition rename (image : Image) (name : string) : Image :=
  d ← image;
  match bands d with
  | [(_, r)] => Val {| bands := [(name, r)];
                       properties := properties d;
                       footprint := footprint d |}
  | _ => Err "Image.rename: the number of names must match the number of bands"
  end.

(** [image.get(key)]: the property, null when the image has none *)
Definition get (image : Image) (key : string) : computed pyval :=
  d ← image; Val (default PNone (properties d !! key)).

(** [image.set(key, value)] *)
Definition set (image : Image) (key : string) (value : computed pyval) : Image :=
  d ← image;
  v ← value;
  Val {| bands := bands d;
         properties := <[key := v]> (properties d);
         footprint := footprint d |}.

(** The raster an operand of an expression stands for: a constant, or the
    one band of the image bound to a variable. *)
Fixpoint operand (vars : gmap string Image) (e : expr) : computed Raster :=
  match e with
  | EConst q => Val (fun _ => Some q)
  | EVar x =>
      match vars !! x with
      | Some image =>
          d ← image;
          match bands d with
          | [(_, r)] => Val r
          | _ => Err "Image.expression: operand is not a single band"
          end
      | None => Err "Image.expression: unbound variable"
      end
  | EAdd a b => ra ← operand vars a; rb ← operand vars b;
                Val (fun p => pixel_op Qplus (ra p) (rb p))
  | ESub a b => ra ← operand vars a; rb ← operand vars b;
                Val (fun p => pixel_op Qminus (ra p) (rb p))
  | EMul a b => ra ← operand vars a; rb ← operand vars b;
                Val (fun p => pixel_op Qmult (ra p) (rb p))
  | EDiv a b => ra ← operand vars a; rb ← operand vars b;
                Val (fun p => pixel_div (ra p) (rb p))
  end.

(** [image.expression(expression, map)] *)
Definition expression (image : Image) (text : string) (vars : gmap string Image) : Image :=
  d ← image;
  e ← match parse_expression text with
      | Some e => Val e
      | None => Err "Image.expression: cannot parse the expression"
      end;
  r ← operand vars e;
  Val {| bands := [(expression_band e, r)];
         properties := expression_properties (properties d);
         footprint := footprint d |}.

(** A date argument as the service reads it: text [YYYY-MM-DD] or
    milliseconds since the epoch. *)
Definition date_of (v : pyval) : computed Z :=
  match v with
  | PStr s =>
      match parse_ymd s with
      | Some (y, m, d) => Val (days_from_civil y m d * millis_per_day)
      | None => Err "Date: cannot parse the text"
      end
  | PNum q => Val (Qfloor q)
  | PNone => Err "Date: parameter value is required"
  end.

(** [ee.Date(value)] *)
Definition Date (value : computed pyval) : computed Z :=
  v ← value; date_of v.

(** [date.format(pattern)], for the pattern of days and years 0000-9999 *)
Definition format (date : computed Z) (pattern : string) : computed pyval :=
  t ← date;
  if negb (String.eqb pattern "YYYY-MM-dd") then Err "Date.format: pattern outside the model"
  else
    let '(y, m, d) := civil_from_days (t / millis_per_day) in
    if (0 <=? y) && (y <=? 9999) then Val (PStr (format_ymd y m d))
    else Err "Date.format: year outside the model".

Definition time_in_range (s e : Z) (d : ImageData) : bool :=
  match properties d !! "system:time_start" with
  | Some (PNum t) => Qle_bool (inject_Z s) t && negb (Qle_bool (inject_Z e) t)
  | _ => false
  end.

(** [collection.filterDate(start, end)]: start inclusive, end exclusive *)
Definition filterDate (collection : ImageCollection) (start_date end_date : string)
  : ImageCollection :=
  l ← collection;
  s ← date_of (PStr start_date);
  e ← date_of (PStr end_date);
  Val (List.filter (time_in_range s e) l).

Definition in_bounds (g : Geometry) (d : ImageData) : bool :=
  match footprint d with
  | Some f => intersects f g
  | None => true
  end.

(** [collection.filterBounds(geometry)] *)
Definition filterBounds (collection : ImageCollection) (g : Geometry) : ImageCollection :=
  l ← collection; Val (List.filter (in_bounds g) l).

(** The values of band [name] at pixel [p] over the images that have it
    unmasked there. *)
Definition pixel_inputs (name : string) (p : Pixel) (l : list ImageData) : list Q :=
  omap (fun d => r ← find_band name (bands d); r p) l.

(** [collection.mean()] and its siblings: one image, band by band and
    pixel by pixel over the collection. *)
Definition reduce (r : Reducer) (collection : ImageCollection) : Image :=
  l ← collection;
  Val {| bands := match l with
                  | [] => []
                  | d :: _ => (fun '(n, _) => (n, fun p => reduce_values r (pixel_inputs n p l)))
                                <$> bands d
                  end;
         properties := ∅;
         footprint := None |}.

(** [image.reduceRegion(reducer, geometry, scale)]: a dictionary with one
    entry per band, null where the region holds no data. *)
Definition reduceRegion (image : Image) (r : Reducer) (g : Geometry) (scale : Z)
  : computed (gmap string pyval) :=
  d ← image;
  Val (list_to_map ((fun '(n, rs) =>
         (n, match region_reduce r rs g scale with
             | Some q => PNum q
             | None => PNone
             end)) <$> bands d)).

(** [dictionary.get(key)] *)
Definition dict_get (dict : computed (gmap string pyval)) (key : string) : computed pyval :=
  m ← dict;
  match m !! key with
  | Some v => Val v
  | None => Err "Dictionary.get: the dictionary does not contain the key"
  end.

(** The property reaches the client. *)
Definition transmitted (kv : string * pyval) : bool :=
  match kv.2 with
  | PNone => null_properties
  | _ => true
  end.

(** [ee.Feature(geometry, properties)] *)
Definition Feature (g : option Geometry) (props : list (string * computed pyval)) : Feature :=
  kvs ← mapM (fun '(k, c) => v ← c; Val (k, v)) props;
  Val {| geometry := g; feature_properties := list_to_map (List.filter transmitted kvs) |}.

End ops.
End EE.

(** ** Band Selector *)

Definition band_mapping : gmap string string :=
  {[ "RED" := "B4"; "GREEN" := "B3"; "BLUE" := "B2"; "NIR" := "B8" ]}.

Definition select_bands `{Engine} (image : Image) (index_name : string) : pyresult Image :=
  match band_mapping !! index_name with
  | Some band => Ok (EE.select image band)
  | None => Raise (ValueError "Unsupported index! Available: RED, GREEN, BLUE, NIR")
  end.

(** ** The session with the service *)

Record World `{Engine} : Type := {
  (** [ee.Initialize()] has run *)
  initialized : bool;
  (** round trips made so far *)
  requests : nat;
  (** the catalogue of the service: the images of each named collection *)
  assets : string -> option (list ImageData)
}.

(** Python code that talks to the session: it may raise, and it leaves a
    world behind either way. *)
Definition M `{Engine} (A : Type) : Type := World -> pyresult A * World.

#[global] Instance M_ret `{Engine} : MRet M := fun A a w => (Ok a, w).
#[global] Instance M_bind `{Engine} : MBind M := fun A B f m w =>
  match m w with
  | (Ok a, w') => f a w'
  | (Raise e, w') => (Raise e, w')
  end.

Definition liftR `{Engine} {A} (r : pyresult A) : M A := fun w => (r, w).

(** The reply to [getInfo()] on a feature collection, a dict of dicts. *)
Record FeatureInfo : Type := {
  f_type : string;
  f_properties : gmap string pyval
}.

Record CollectionInfo : Type := {
  c_type : string;
  features : list FeatureInfo
}.

Module ee.
Section client.
Context `{Engine}.

(** [ee.Initialize()], against a service that can be reached and that
    accepts the credentials: the availability of the service is a
    precondition of the script, and a session it refuses is not a [World]. *)
Definition Initialize : M unit := fun w =>
  (Ok tt, {| initialized := true; requests := requests w; assets := assets w |}).

(** The handle of a named collection of the catalogue. *)
Definition load (w : World) (name : string) : ImageCollection :=
  match assets w name with
  | Some l => Val l
  | None => Err "ImageCollection.load: asset not found"
  end.

(** [ee.ImageCollection(name)] *)
Definition ImageCollection (name : string) : M ImageCollection := fun w =>
  (Ok (load w name), w).

(** [collection.map(f)]: the Python function [f] builds the handle of each
    element; an exception it raises is raised by [map]. *)
Definition map {A B} (f : computed A -> pyresult (computed B)) (collection : computed (list A))
  : pyresult (computed (list B)) :=
  match collection with
  | Val l =>
      match mapM (M := pyresult) (fun a => f (Val a)) l with
      | Ok rs => Ok (mapM (M := computed) id rs)
      | Raise e => Raise e
      end
  | Err msg => Ok (Err msg)
  end.

Definition feature_info (d : FeatureData) : FeatureInfo :=
  {| f_type := "Feature"; f_properties := feature_properties d |}.

(** [collection.getInfo()]: the one blocking request; an error of the
    computation comes back as an [EEException]. *)
Definition getInfo (collection : FeatureCollection) : M CollectionInfo := fun w =>
  if initialized w then
    (match collection with
     | Val l => Ok {| c_type := "FeatureCollection"; features := feature_info <$> l |}
     | Err msg => Raise (EEException msg)
     end,
     {| initialized := true; requests := S (requests w); assets := assets w |})
  else (Raise (EEException "Earth Engine client library not initialized."), w).

End client.
End ee.

(** [d[key]] on a Python dict *)
Definition subscript (d : gmap string pyval) (key : string) : pyresult pyval :=
  match d !! key with
  | Some v => Ok v
  | None => Raise (KeyError key)
  end.

(** ** pandas *)

Inductive Timestamp : Type :=
| NaT
| Stamp (ns : Z).

(** A cell of a table.  [SObj PNone] is the missing entry: the [None] of
    the list, which pandas shows as NaN in a column that also holds
    numbers. *)
Inductive scalar : Type :=
| SInt (z : Z)
| STime (t : Timestamp)
| SObj (v : pyval).

Record DataFrame : Type := {
  index_name : option string;
  index : list scalar;
  columns : list (string * list scalar)
}.

Module pd.

Definition in_bounds (ns : Z) : bool := (- 2 ^ 63 <? ns) && (ns <? 2 ^ 63).

(** A count of nanoseconds as a timestamp of 64 bits; beyond them pandas
    raises its [OutOfBoundsDatetime], a [ValueError], whose text is
    abridged here. *)
Definition stamp (ns : Z) : pyresult Timestamp :=
  if in_bounds ns then Ok (Stamp ns)
  else Raise (ValueError "Out of bounds nanosecond timestamp").

(** One entry of [pd.to_datetime]: a day in text form, a count of
    nanoseconds, or nothing. *)
Definition to_datetime1 (v : pyval) : pyresult Timestamp :=
  match v with
  | PStr s =>
      match parse_ymd s with
      | Some (y, m, d) => stamp (days_from_civil y m d * nanos_per_day)
      | None => Raise (ValueError "Unknown datetime string format")
      end
  | PNum q => stamp (Qfloor q)
  | PNone => Ok NaT
  end.

(** [pd.to_datetime(list)] *)
Definition to_datetime (l : list pyval) : pyresult (list scalar) :=
  mapM (M := pyresult) (fun v => t ← to_datetime1 v; Ok (STime t)) l.

Fixpoint pop_column (key : string) (cols : list (string * list scalar))
  : option (list scalar * list (string * list scalar)) :=
  match cols with
  | [] => None
  | (k, c) :: rest =>
      if decide (k = key) then Some (c, rest)
      else '(found, rest') ← pop_column key rest; Some (found, (k, c) :: rest')
  end.

(** [df.set_index(key)]: the column becomes the index, rows keep their
    order. *)
Definition set_index (df : DataFrame) (key : string) : pyresult DataFrame :=
  match pop_column key (columns df) with
  | Some (c, rest) => Ok {| index_name := Some key; index := c; columns := rest |}
  | None => Raise (KeyError key)
  end.

Definition same_length (n : nat) (col : string * list scalar) : bool :=
  Nat.eqb (length col.2) n.

(** [pd.DataFrame(dict of columns)], under the default range index *)
Definition DataFrame (data : list (string * list scalar)) : pyresult DataFrame :=
  match data with
  | [] => Ok {| index_name := None; index := []; columns := [] |}
  | (_, c) :: _ =>
      if forallb (same_length (length c)) data
      then Ok {| index_name := None;
                 index := (fun i => SInt (Z.of_nat i)) <$> seq 0 (length c);
                 columns := data |}
      else Raise (ValueError "All arrays must be of the same length")
  end.

End pd.

(** ** Collection Aggregator *)

Definition aggregate_image_collection `{Engine}
    (collection_name start_date end_date aggregation_method : string) : M Image :=
  _ ← ee.Initialize;
  c ← ee.ImageCollection collection_name;
  let collection := EE.filterDate c start_date end_date in
  if String.eqb aggregation_method "mean" then mret (EE.reduce RMean collection)
  else if String.eqb aggregation_method "median" then mret (EE.reduce RMedian collection)
  else if String.eqb aggregation_method "sum" then mret (EE.reduce RSum collection)
  else if String.eqb aggregation_method "min" then mret (EE.reduce RMin collection)
  else if String.eqb aggregation_method "max" then mret (EE.reduce RMax collection)
  else liftR (Raise (ValueError
         "Wrong aggregation method! Available: mean, median, sum, min, max")).

(** ** Index Calculator *)

Definition calculateEVI `{Engine} (image blue red nir : Image) : Image :=
  let evi := EE.expression image
    "2.5 * ((NIR - RED) / (NIR + 6 * RED - 7.5 * BLUE + 1))"
    {[ "NIR" := nir; "RED" := red; "BLUE" := blue ]} in
  EE.rename evi "EVI".

(** ** Time Series Extractor *)

Definition calc_evi `{Engine} (image : Image) : pyresult Image :=
  blue_band ← select_bands image "BLUE";
  red_band ← select_bands image "RED";
  nir_band ← select_bands image "NIR";
  let evi := calculateEVI image blue_band red_band nir_band in
  Ok (EE.set evi "system:time_start" (EE.get image "system:time_start")).

Definition reduce_region `{Engine} (aoi : Geometry) (image : Image) : pyresult Feature :=
  let mean_value := EE.reduceRegion image RMean aoi 30 in
  Ok (EE.Feature None
        [ ("date", EE.format (EE.Date (EE.get image "system:time_start")) "YYYY-MM-dd");
          ("EVI", EE.dict_get mean_value "EVI") ]).

(** Lines 167-175: the table built from the features the service sent. *)
Definition time_series_of_features (features : list FeatureInfo) : pyresult DataFrame :=
  dates ← mapM (M := pyresult) (fun f => subscript (f_properties f) "date") features;
  values ← mapM (M := pyresult) (fun f => subscript (f_properties f) "EVI") features;
  date_index ← pd.to_datetime dates;
  frame ← pd.DataFrame [ ("Date", date_index); ("EVI", SObj <$> values) ];
  pd.set_index frame "Date".

Definition calculate_time_series_EVI `{Engine}
    (collection_name start_date end_date : string) (aoi : Geometry) : M DataFrame :=
  _ ← ee.Initialize;
  c ← ee.ImageCollection collection_name;
  let collection := EE.filterBounds (EE.filterDate c start_date end_date) aoi in
  evi_collection ← liftR (ee.map calc_evi collection);
  reduced ← liftR (ee.map (reduce_region aoi) evi_collection);
  info ← ee.getInfo reduced;
  liftR (time_series_of_features (features info)).

(** ** An in-memory engine for examples

    Regions are rectangles of the integer pixel grid; a region statistic
    folds the unmasked pixels inside the rectangle. *)

Module Fake.

Record Rect : Type := { xmin : Z; ymin : Z; xmax : Z; ymax : Z }.

Definition rect_intersects (a b : Rect) : bool :=
  (xmin a <? xmax b) && (xmin b <? xmax a) && (ymin a <? ymax b) && (ymin b <? ymax a).

Definition rect_pixels (g : Rect) : list Pixel :=
  x ← seqZ (xmin g) (xmax g - xmin g);
  y ← seqZ (ymin g) (ymax g - ymin g);
  [(x, y)].

Fixpoint insert_sorted (x : Q) (l : list Q) : list Q :=
  match l with
  | [] => [x]
  | y :: rest => if Qle_bool x y then x :: l else y :: insert_sorted x rest
  end.

Definition sort (l : list Q) : list Q := foldr insert_sorted [] l.

Definition total (l : list Q) : Q := foldr Qplus 0%Q l.

Definition fold_values (r : Reducer) (l : list Q) : option Q :=
  match sort l with
  | [] => None
  | least :: _ =>
      let n := length l in
      Some match r with
           | RMean => Qred (total l / inject_Z (Z.of_nat n))
           | RSum => Qred (total l)
           | RMin => least
           | RMax => List.last (sort l) least
           | RMedian =>
               let hi := nth (n / 2) (sort l) least in
               let lo := nth ((n - 1) / 2) (sort l) least in
               Qred ((lo + hi) / 2)
           end
  end.

(** The engine, transmitting null properties or not. *)
Definition engine_with (nulls : bool) : Engine := {|
  Geometry := Rect;
  intersects := rect_intersects;
  reduce_values := fold_values;
  region_reduce := fun r raster g _ => fold_values r (omap raster (rect_pixels g));
  expression_band := fun _ => "constant";
  expression_properties := fun _ => ∅;
  null_properties := nulls
|}.

#[global] Instance engine : Engine := engine_with true.

Definition unit_square : Rect := {| xmin := 0; ymin := 0; xmax := 1; ymax := 1 |}.

Definition june_1 : Z := 1685577600000.
Definition june_2 : Z := 1685664000000.

Section data.
Variable nulls : bool.
#[local] Instance engine_of_data : Engine := engine_with nulls.

(** A scene with constant reflectance in the bands B2, B3, B4, B8, captured
    at [t] milliseconds. *)
Definition scene (t : Z) (b2 b3 b4 b8 : option Q) : ImageData :=
  {| bands := [ ("B2", fun _ => b2); ("B3", fun _ => b3);
                ("B4", fun _ => b4); ("B8", fun _ => b8) ];
     properties := {[ "system:time_start" := PNum (inject_Z t) ]};
     footprint := Some {| xmin := -10; ymin := -10; xmax := 10; ymax := 10 |} |}.

Definition catalogue (l : list ImageData) (name : string) : option (list ImageData) :=
  if String.eqb name "TEST/S2" then Some l else None.

Definition world (l : list ImageData) : World :=
  {| initialized := false; requests := 0; assets := catalogue l |}.

End data.

End Fake.

(** ** Vocabulary of the statements *)

Definition message (e : exn) : string :=
  match e with
  | ValueError msg | KeyError msg | EEException msg => msg
  end.

(** The text of the exception contains the word. *)
Definition mentions (e : exn) (word : string) : Prop :=
  is_Some (String.index 0 word (message e)).

Definition logical_names : list string := ["RED"; "GREEN"; "BLUE"; "NIR"].

Definition aggregation_methods : list string := ["mean"; "median"; "sum"; "min"; "max"].

Definition physical_bands : list (string * string) :=
  [("RED", "B4"); ("GREEN", "B3"); ("BLUE", "B2"); ("NIR", "B8")].

Definition unsupported_index : exn :=
  ValueError "Unsupported index! Available: RED, GREEN, BLUE, NIR".

Definition reducers : list (string * Reducer) :=
  [("mean", RMean); ("median", RMedian); ("sum", RSum); ("min", RMin); ("max", RMax)].

Definition wrong_method : exn :=
  ValueError "Wrong aggregation method! Available: mean, median, sum, min, max".

(** The session once [ee.Initialize()] has run. *)
Definition opened `{Engine} (w : World) : World :=
  {| initialized := true; requests := requests w; assets := assets w |}.

Definition EVI_formula : expr :=
  EMul (EConst 2.5)
    (EDiv (ESub (EVar "NIR") (EVar "RED"))
       (EAdd (ESub (EAdd (EVar "NIR") (EMul (EConst 6) (EVar "RED")))
                (EMul (EConst 7.5) (EVar "BLUE")))
          (EConst 1))).

(** The handle stands for an image of one band, with this raster. *)
Definition single_band `{Engine} (image : Image) (r : Raster) : Prop :=
  exists d name, image = Val d /\ bands d = [(name, r)].


(** The calendar conversions agree on day [z]: the fields name a day of
    the calendar, and that day is [z]. *)
Definition day_ok (z : Z) : bool :=
  let '(y, m, d) := civil_from_days z in
  (days_from_civil y m d =? z)
  && (1 <=? m) && (m <=? 12) && (1 <=? d) && (d <=? days_in_month y m)
  && (0 <=? y) && (y <=? 400).

Fixpoint days_ok_from (n : nat) (z : Z) : bool :=
  match n with
  | O => true
  | S n => day_ok z && days_ok_from n (z + 1)
  end.

(** The day an instant in milliseconds falls on, and its text. *)
Definition day_of_millis (ms : Z) : Z := ms / millis_per_day.

Definition day_text (ms : Z) : string :=
  let '(y, m, d) := civil_from_days (day_of_millis ms) in format_ymd y m d.

(** The session once the blocking request has been answered. *)
Definition fetched `{Engine} (w : World) : World :=
  {| initialized := true; requests := S (requests w); assets := assets w |}.

(** The collection an invocation of the Time Series Extractor works on. *)
Definition filtered `{Engine} (w : World) (collection_name start_date end_date : string)
    (aoi : Geometry) : ImageCollection :=
  EE.filterBounds (EE.filterDate (ee.load w collection_name) start_date end_date) aoi.

(** What [calc_evi] and [reduce_region] return, without the Python wrapper. *)
Definition evi_handle `{Engine} (image : Image) : Image :=
  EE.set (calculateEVI image (EE.select image "B2") (EE.select image "B4")
            (EE.select image "B8"))
    "system:time_start" (EE.get image "system:time_start").

Definition feature_handle `{Engine} (aoi : Geometry) (image : Image) : Feature :=
  EE.Feature None
    [ ("date", EE.format (EE.Date (EE.get image "system:time_start")) "YYYY-MM-dd");
      ("EVI", EE.dict_get (EE.reduceRegion image RMean aoi 30) "EVI") ].

(** The features the service computes for a collection. *)
Definition features_of `{Engine} (aoi : Geometry) (collection : ImageCollection)
  : FeatureCollection :=
  imgs ← collection;
  evis ← mapM (M := computed) id ((fun d => evi_handle (Val d)) <$> imgs);
  mapM (M := computed) id ((fun e => feature_handle aoi (Val e)) <$> evis).

(** The capture instant of an image, in milliseconds. *)
Definition capture_time `{Engine} (d : ImageData) : computed Z :=
  EE.date_of (default PNone (properties d !! "system:time_start")).

(** The spatial mean of the EVI of an image over the area of interest:
    what the remote reduction yields, null when it finds no data. *)
Definition evi_mean `{Engine} (aoi : Geometry) (d : ImageData) : computed pyval :=
  EE.dict_get (EE.reduceRegion (evi_handle (Val d)) RMean aoi 30) "EVI".

(** Midnight of the capture day, in pandas nanoseconds. *)
Definition day_stamp (ms : Z) : scalar :=
  STime (Stamp (day_of_millis ms * nanos_per_day)).

(** The row of the table an image accounts for. *)
Definition row_of `{Engine} (aoi : Geometry) (d : ImageData) (date value : scalar) : Prop :=
  exists ms v,
    capture_time d = Val ms /\ date = day_stamp ms
    /\ evi_mean aoi d = Val v /\ value = SObj v.

Definition date_le (a b : scalar) : Prop :=
  match a, b with
  | STime (Stamp x), STime (Stamp y) => x <= y
  | _, _ => False
  end.

(** Each row is dated no later than the row after it. *)
Definition ascending (dates : list scalar) : Prop :=
  forall i a b, dates !! i = Some a -> dates !! S i = Some b -> date_le a b.

(** The calendar year an instant in milliseconds falls in. *)
Definition year_of_millis (ms : Z) : Z := (civil_from_days (day_of_millis ms)).1.1.

(** The image can be tabulated: it has a capture time that pandas can
    hold, and the service can compute the mean of its EVI and transmit it. *)
Definition tabulated `{Engine} (aoi : Geometry) (d : ImageData) : Prop :=
  exists ms v,
    capture_time d = Val ms
    /\ pd.in_bounds (day_of_millis ms * nanos_per_day) = true
    /\ evi_mean aoi d = Val v
    /\ EE.transmitted ("EVI", v) = true.

(** The service can compute the feature of the image: its capture day can
    be written as text, and the mean of its EVI can be computed. *)
Definition computable `{Engine} (aoi : Geometry) (d : ImageData) : Prop :=
  exists ms v,
    capture_time d = Val ms
    /\ 0 <= year_of_millis ms <= 9999
    /\ evi_mean aoi d = Val v.

(** The capture days of the images are in ascending order. *)
Definition captured_in_order `{Engine} (imgs : list ImageData) : Prop :=
  forall i d d' ms ms',
    imgs !! i = Some d -> imgs !! S i = Some d' ->
    capture_time d = Val ms -> capture_time d' = Val ms' ->
    day_of_millis ms <= day_of_millis ms'.

(** Three scenes for the examples: two clear ones, a day apart, and one
    whose red band is masked. *)
Definition clear_june_1 (nulls : bool) : ImageData (H := Fake.engine_with nulls) :=
  Fake.scene nulls Fake.june_1 (Some 0.1%Q) (Some 0.2%Q) (Some 0.2%Q) (Some 0.6%Q).

Definition clear_june_2 (nulls : bool) : ImageData (H := Fake.engine_with nulls) :=
  Fake.scene nulls Fake.june_2 (Some 0.1%Q) (Some 0.2%Q) (Some 0.3%Q) (Some 0.6%Q).

Definition masked_june_1 (nulls : bool) : ImageData (H := Fake.engine_with nulls) :=
  Fake.scene nulls (Fake.june_1 + 3600000) (Some 0.1%Q) (Some 0.2%Q) None (Some 0.6%Q).

(** ** Plotter *)

(** The calls the script makes on [matplotlib.pyplot], in order. *)
Inductive plt_call : Type :=
| PltFigure (width height : Z)
| PltPlot (x y : list scalar) (marker linestyle color : string)
| PltXlabel (label : string)
| PltYlabel (label : string)
| PltTitle (label : string)
| PltGrid (visible : bool)
| PltShow.

(** Python code that draws: it may raise, and it leaves the calls made so
    far behind either way. *)
Definition Plot (A : Type) : Type := list plt_call -> pyresult A * list plt_call.

#[global] Instance Plot_ret : MRet Plot := fun A a calls => (Ok a, calls).
#[global] Instance Plot_bind : MBind Plot := fun A B f m calls =>
  match m calls with
  | (Ok a, calls') => f a calls'
  | (Raise e, calls') => (Raise e, calls')
  end.

Module plt.

Definition call (c : plt_call) : Plot unit := fun calls => (Ok tt, (calls ++ [c])%list).

Definition figure (width height : Z) : Plot unit := call (PltFigure width height).
Definition plot (x y : list scalar) (marker linestyle color : string) : Plot unit :=
  call (PltPlot x y marker linestyle color).
Definition xlabel (label : string) : Plot unit := call (PltXlabel label).
Definition ylabel (label : string) : Plot unit := call (PltYlabel label).
Definition title (label : string) : Plot unit := call (PltTitle label).
Definition grid (visible : bool) : Plot unit := call (PltGrid visible).
Definition show : Plot unit := call PltShow.

End plt.

(** [df[key]]: the column of that name *)
Fixpoint getitem (cols : list (string * list scalar)) (key : string)
  : pyresult (list scalar) :=
  match cols with
  | [] => Raise (KeyError key)
  | (k, c) :: rest => if decide (k = key) then Ok c else getitem rest key
  end.

Definition plot_time_series_EVI (time_series : DataFrame) : Plot unit :=
  _ ← plt.figure 10 5;
  evi ← (fun calls => (getitem (columns time_series) "EVI", calls)) : Plot (list scalar);
  _ ← plt.plot (index time_series) evi "o" "-" "b";
  _ ← plt.xlabel "Date";
  _ ← plt.ylabel "EVI";
  _ ← plt.title "Time Series of EVI";
  _ ← plt.grid true;
  plt.show.

(** ** Vocabulary of the further statements *)

(** The EVI of a pixel from the rasters of the blue, red and near-infrared
    bands. *)
Definition evi_raster (b r n : Raster) : Raster := fun p =>
  pixel_op Qmult (Some 2.5%Q)
    (pixel_div (pixel_op Qminus (n p) (r p))
       (pixel_op Qplus
          (pixel_op Qminus
             (pixel_op Qplus (n p) (pixel_op Qmult (Some (inject_Z 6)) (r p)))
             (pixel_op Qmult (Some 7.5%Q) (b p)))
          (Some (inject_Z 1)))).

(** A statistic of the service as a Python value. *)
Definition pyval_of (o : option Q) : pyval :=
  match o with
  | Some q => PNum q
  | None => PNone
  end.

(** The table without rows. *)
Definition empty_table : DataFrame :=
  {| index_name := Some "Date"; index := []; columns := [("EVI", [])] |}.

(** The image has the three bands the index is made of. *)
Definition index_bands `{Engine} (d : ImageData) (b r n : Raster) : Prop :=
  EE.find_band "B2" (bands d) = Some b
  /\ EE.find_band "B4" (bands d) = Some r
  /\ EE.find_band "B8" (bands d) = Some n.

(** The image can be turned into a row: it has the three bands, and the
    mean of its EVI over the area reaches the client, as a number or as a
    null the service transmits. *)
Definition ready `{Engine} (aoi : Geometry) (d : ImageData) : Prop :=
  exists b r n,
    index_bands d b r n
    /\ (null_properties = true \/ region_reduce RMean (evi_raster b r n) aoi 30 <> None).

Definition out_of_bounds : exn := ValueError "Out of bounds nanosecond timestamp".

(** A feature as the service computes it for an image: the text of the
    capture day, and the mean of the EVI when it is transmitted. *)
Definition day_feature `{Engine} (f : FeatureData) : Prop :=
  exists ms v,
    0 <= year_of_millis ms <= 9999
    /\ f = {| geometry := None;
              feature_properties :=
                list_to_map (List.filter EE.transmitted
                  [("date", PStr (day_text ms)); ("EVI", v)]) |}.

(** A scene of 1 June without the near-infrared band. *)
Definition no_nir_june_1 (nulls : bool) : ImageData (H := Fake.engine_with nulls) :=
  {| bands := [ ("B2", fun _ => Some 0.1%Q); ("B4", fun _ => Some 0.2%Q) ];
     properties := {[ "system:time_start" := PNum (inject_Z Fake.june_1) ]};
     footprint := None |}.

(** The Python class of an exception. *)
Definition class_name (e : exn) : string :=
  match e with
  | ValueError _ => "ValueError"
  | KeyError _ => "KeyError"
  | EEException _ => "EEException"
  end.
(** * Calendar *)

Lemma days_ok_from_spec (n : nat) :
  forall z k, days_ok_from n z = true -> z <= k < z + Z.of_nat n -> day_ok k = true.
Proof.
  induction n as [|n IH]; intros z k Hok Hk; [lia |].
  cbn [days_ok_from] in Hok. apply andb_true_iff in Hok as [Hz Hrest].
  destruct (decide (k = z)) as [-> | Hne]; [done |].
  apply (IH (z + 1)); [done | lia].
Qed.

(** One era of 400 years, day by day from 0000-03-01. *)
Lemma era_days_ok : days_ok_from (Z.to_nat 146097) (-719468) = true.
Proof. vm_compute. reflexivity. Qed.

Lemma civil_from_days_shift (z k : Z) :
  civil_from_days (z + 146097 * k) =
    let '(y, m, d) := civil_from_days z in (y + 400 * k, m, d).
Proof.
  unfold civil_from_days.
  replace (z + 146097 * k + 719468) with (z + 719468 + k * 146097) by lia.
  rewrite Z.div_add by lia.
  set (q := (z + 719468) / 146097).
  replace (z + 719468 + k * 146097 - (q + k) * 146097) with (z + 719468 - q * 146097) by lia.
  set (doe := z + 719468 - q * 146097).
  cbv zeta.
  set (yoe := (doe - doe / 1460 + doe / 36524 - doe / 146096) / 365).
  set (doy := doe - (365 * yoe + yoe / 4 - yoe / 100)).
  set (mp := (5 * doy + 2) / 153).
  destruct (_ <=? 2); f_equal; f_equal; lia.
Qed.

Lemma days_from_civil_shift (y m d k : Z) :
  days_from_civil (y + 400 * k) m d = days_from_civil y m d + 146097 * k.
Proof.
  unfold days_from_civil.
  replace (if m <=? 2 then y + 400 * k - 1 else y + 400 * k)
    with ((if m <=? 2 then y - 1 else y) + k * 400) by (destruct (m <=? 2); lia).
  set (y' := if m <=? 2 then y - 1 else y).
  rewrite Z.div_add by lia. cbv zeta.
  set (q := y' / 400).
  replace (y' + k * 400 - (q + k) * 400) with (y' - q * 400) by lia.
  lia.
Qed.

Lemma is_leap_shift (y k : Z) : is_leap (y + 400 * k) = is_leap y.
Proof.
  unfold is_leap.
  replace (y + 400 * k) with (y + (100 * k) * 4) at 1 by lia.
  replace (y + 400 * k) with (y + (4 * k) * 100) at 1 by lia.
  replace (y + 400 * k) with (y + k * 400) by lia.
  by rewrite !Z_mod_plus_full.
Qed.

Lemma days_in_month_shift (y m k : Z) : days_in_month (y + 400 * k) m = days_in_month y m.
Proof. unfold days_in_month. by rewrite is_leap_shift. Qed.

(** The day count and the calendar fields determine each other. *)
Lemma civil_round_trip (z : Z) :
  let '(y, m, d) := civil_from_days z in
  days_from_civil y m d = z
  /\ 1 <= m <= 12 /\ 1 <= d <= days_in_month y m
  /\ 400 * ((z + 719468) / 146097) <= y <= 400 * ((z + 719468) / 146097) + 400.
Proof.
  set (k := (z + 719468) / 146097).
  set (z0 := z - 146097 * k).
  assert (Hz0 : -719468 <= z0 < -719468 + 146097).
  { unfold z0, k. pose proof (Z.mod_pos_bound (z + 719468) 146097 ltac:(lia)) as Hmod.
    rewrite Z.mod_eq in Hmod by lia. lia. }
  assert (Hok : day_ok z0 = true).
  { apply (days_ok_from_spec _ _ _ era_days_ok). lia. }
  replace z with (z0 + 146097 * k) by (unfold z0; lia).
  rewrite civil_from_days_shift.
  unfold day_ok in Hok. destruct (civil_from_days z0) as [[y m] d].
  rewrite !andb_true_iff in Hok.
  destruct Hok as [[[[[[Hdays Hm1] Hm2] Hd1] Hd2] Hy1] Hy2].
  rewrite days_from_civil_shift, days_in_month_shift.
  lia.
Qed.

Lemma digit_round_trip (n : Z) : digit_of_ascii (ascii_of_digit n) = Some (n mod 10).
Proof.
  unfold ascii_of_digit.
  pose proof (Z.mod_pos_bound n 10 ltac:(lia)) as Hr.
  set (r := n mod 10) in *.
  assert (Hcases : r = 0 \/ r = 1 \/ r = 2 \/ r = 3 \/ r = 4
                   \/ r = 5 \/ r = 6 \/ r = 7 \/ r = 8 \/ r = 9) by lia.
  clearbody r. repeat (destruct Hcases as [-> | Hcases]); subst; reflexivity.
Qed.

Lemma parse_ymd_digits (c1 c2 c3 c4 c5 c6 c7 c8 : ascii) (d1 d2 d3 d4 d5 d6 d7 d8 : Z) :
  digit_of_ascii c1 = Some d1 -> digit_of_ascii c2 = Some d2 ->
  digit_of_ascii c3 = Some d3 -> digit_of_ascii c4 = Some d4 ->
  digit_of_ascii c5 = Some d5 -> digit_of_ascii c6 = Some d6 ->
  digit_of_ascii c7 = Some d7 -> digit_of_ascii c8 = Some d8 ->
  parse_ymd (String c1 (String c2 (String c3 (String c4 (String "-"
              (String c5 (String c6 (String "-" (String c7 (String c8 EmptyString)))))))))) =
    let y := 10 * (10 * (10 * (10 * 0 + d1) + d2) + d3) + d4 in
    let m := 10 * (10 * 0 + d5) + d6 in
    let d := 10 * (10 * 0 + d7) + d8 in
    if (1 <=? m) && (m <=? 12) && (1 <=? d) && (d <=? days_in_month y m)
    then Some (y, m, d) else None.
Proof.
  intros H1 H2 H3 H4 H5 H6 H7 H8. unfold parse_ymd.
  cbn [String.length String.substring Nat.eqb negb String.eqb Ascii.eqb andb
       number_of_digits].
  rewrite H1, H2, H3, H4, H5, H6, H7, H8. reflexivity.
Qed.

(** A day written by [format_ymd] reads back as the same day. *)
Lemma text_round_trip (y m d : Z) :
  0 <= y <= 9999 -> 1 <= m <= 12 -> 1 <= d <= days_in_month y m ->
  parse_ymd (format_ymd y m d) = Some (y, m, d).
Proof.
  intros Hy Hm Hd.
  assert (Hd31 : d <= 31).
  { unfold days_in_month in Hd. repeat destruct (_ : bool) in Hd; lia. }
  unfold format_ymd. cbn [zero_pad].
  rewrite (parse_ymd_digits _ _ _ _ _ _ _ _ _ _ _ _ _ _ _ _
             (digit_round_trip _) (digit_round_trip _) (digit_round_trip _)
             (digit_round_trip _) (digit_round_trip _) (digit_round_trip _)
             (digit_round_trip _) (digit_round_trip _)).
  cbv zeta.
  replace (10 * (10 * (10 * (10 * 0 + (y / 10 / 10 / 10) mod 10) + (y / 10 / 10) mod 10)
                 + (y / 10) mod 10) + y mod 10) with y by (Z.div_mod_to_equations; lia).
  replace (10 * (10 * 0 + (m / 10) mod 10) + m mod 10) with m by (Z.div_mod_to_equations; lia).
  replace (10 * (10 * 0 + (d / 10) mod 10) + d mod 10) with d by (Z.div_mod_to_equations; lia).
  replace ((1 <=? m) && (m <=? 12) && (1 <=? d) && (d <=? days_in_month y m)) with true;
    [reflexivity |].
  symmetry. rewrite !andb_true_iff. lia.
Qed.

Lemma day_text_round_trip (z : Z) :
  let '(y, m, d) := civil_from_days z in
  0 <= y <= 9999 ->
  parse_ymd (format_ymd y m d) = Some (y, m, d) /\ days_from_civil y m d = z.
Proof.
  pose proof (civil_round_trip z) as Hrt.
  destruct (civil_from_days z) as [[y m] d].
  destruct Hrt as (Hdays & Hm & Hd & _). intros Hy.
  split; [by apply text_round_trip | done].
Qed.
(** * Band Selector *)

Lemma band_mapping_lookup (name : string) :
  band_mapping !! name =
    if decide (name = "RED") then Some "B4"
    else if decide (name = "GREEN") then Some "B3"
    else if decide (name = "BLUE") then Some "B2"
    else if decide (name = "NIR") then Some "B8"
    else None.
Proof.
  unfold band_mapping.
  repeat case_decide; subst; try reflexivity.
  rewrite !lookup_insert_ne by done.
  by rewrite lookup_singleton_ne.
Qed.

Lemma band_mapping_unknown (name : string) :
  name ∉ logical_names -> band_mapping !! name = None.
Proof.
  intros Hname. rewrite band_mapping_lookup.
  repeat case_decide; subst; try done;
    exfalso; apply Hname; unfold logical_names; set_solver.
Qed.

Lemma band_mapping_dom : dom band_mapping = list_to_set logical_names.
Proof.
  apply set_eq. intros name. rewrite elem_of_dom, band_mapping_lookup.
  unfold logical_names. rewrite elem_of_list_to_set, !elem_of_cons, elem_of_nil.
  repeat case_decide; subst; split; intros Hx.
  all: try (by eexists); try tauto.
  by destruct Hx.
Qed.

Lemma unsupported_index_lists_names : Forall (mentions unsupported_index) logical_names.
Proof. repeat constructor; eexists; reflexivity. Qed.

Section band_selector.
Context `{Engine}.

(** C3, as the code has it: for a logical band name outside RED, GREEN,
    BLUE, NIR the Band Selector fails with a [ValueError] of Python, the
    class the source raises, whose message lists the four valid names, and
    it returns no image. *)
Theorem select_bands_unsupported (image : Image) (index_name : string) :
  index_name ∉ logical_names ->
  select_bands image index_name = Raise unsupported_index
  /\ class_name unsupported_index = "ValueError"
  /\ Forall (mentions unsupported_index) logical_names
  /\ forall result, select_bands image index_name <> Ok result.
Proof.
  intros Hname. unfold select_bands.
  rewrite (band_mapping_unknown _ Hname).
  split; [reflexivity | split; [reflexivity |]].
  split; [apply unsupported_index_lists_names | discriminate].
Qed.

Lemma select_bands_known (image : Image) (index_name : string) :
  index_name ∈ logical_names ->
  exists band,
    (index_name, band) ∈ physical_bands
    /\ select_bands image index_name = Ok (EE.select image band).
Proof.
  unfold logical_names, physical_bands, select_bands.
  rewrite !elem_of_cons, elem_of_nil, band_mapping_lookup.
  intros [-> | [-> | [-> | [-> | []]]]]; simpl;
    eexists; (split; [| reflexivity]); set_solver.
Qed.

(** C6: for each logical band name in RED, GREEN, BLUE, NIR the Band
    Selector returns the handle of the input image restricted to the
    physical band of the fixed mapping RED to B4, GREEN to B3, BLUE to B2,
    NIR to B8.  The handle is a new value: where the input is an image that
    has the band, the result carries that one band, with the raster,
    metadata and footprint of the input, which is itself left as it was. *)
Theorem select_bands_supported (image : Image) (index_name : string) :
  index_name ∈ logical_names ->
  exists band,
    (index_name, band) ∈ physical_bands
    /\ select_bands image index_name = Ok (EE.select image band)
    /\ forall d r, image = Val d -> EE.find_band band (bands d) = Some r ->
         EE.select image band =
           Val {| bands := [(band, r)];
                  properties := properties d;
                  footprint := footprint d |}.
Proof.
  intros Hname. destruct (select_bands_known image index_name Hname) as (band & Hband & Hsel).
  exists band. split; [done | split; [done |]].
  intros d r -> Hr. unfold EE.select. cbn [mbind computed_bind]. by rewrite Hr.
Qed.

(** C10: the Band Selector matches names exactly and with case: it returns
    an image only for the four upper-case names, and for any other name,
    the lower-case spellings among them, it raises its unsupported-index
    error whatever the image is, without looking at it. *)
Theorem select_bands_exact_match (index_name : string) :
  (forall image, (exists result, select_bands image index_name = Ok result)
                 <-> index_name ∈ logical_names)
  /\ (index_name ∉ logical_names ->
      forall image image', select_bands image index_name = Raise unsupported_index
                           /\ select_bands image' index_name = select_bands image index_name)
  /\ Forall (fun lower => forall image, select_bands image lower = Raise unsupported_index)
       ["red"; "green"; "blue"; "nir"].
Proof.
  split; [| split].
  - intros image. split.
    + intros [result Hres]. destruct (decide (index_name ∈ logical_names)) as [|Hout]; [done |].
      unfold select_bands in Hres. by rewrite (band_mapping_unknown _ Hout) in Hres.
    + intros Hin. destruct (select_bands_known image _ Hin) as (band & _ & Hsel).
      by eexists.
  - intros Hout image image'. unfold select_bands.
    by rewrite (band_mapping_unknown _ Hout).
  - repeat constructor; intros image; reflexivity.
Qed.

End band_selector.

(** C3 fails as stated: the exception raised for PURPLE is a [ValueError],
    not an error of a class of its own. *)
Lemma select_bands_unsupported_counterexample :
  ("PURPLE" ∉ logical_names)
  /\ exists e,
       select_bands (Val (Fake.scene true 0 None None None None)) "PURPLE" = Raise e
       /\ class_name e = "ValueError"
       /\ class_name e <> "UnsupportedIndexError".
Proof.
  split; [apply (bool_decide_unpack _); vm_compute; exact I |].
  eexists. split; [reflexivity | split; [reflexivity | discriminate]].
Qed.

Lemma select_bands_unsupported_witness :
  ("PURPLE" ∉ logical_names)
  /\ select_bands (Val (Fake.scene true 0 None None None None)) "PURPLE"
     = Raise unsupported_index
  /\ class_name unsupported_index = "ValueError"
  /\ Forall (mentions unsupported_index) logical_names
  /\ forall result,
       select_bands (Val (Fake.scene true 0 None None None None)) "PURPLE" <> Ok result.
Proof.
  assert (Hname : "PURPLE" ∉ logical_names)
    by (apply (bool_decide_unpack _); vm_compute; exact I).
  split; [exact Hname | exact (select_bands_unsupported _ _ Hname)].
Defined.

Lemma select_bands_supported_witness :
  "RED" ∈ logical_names
  /\ exists band,
       (("RED", band) ∈ physical_bands)
       /\ select_bands (Val (Fake.scene true 0 None None (Some 1%Q) None)) "RED"
          = Ok (EE.select (Val (Fake.scene true 0 None None (Some 1%Q) None)) band)
       /\ forall d r, Val (Fake.scene true 0 None None (Some 1%Q) None) = Val d ->
            EE.find_band band (bands d) = Some r ->
            EE.select (Val (Fake.scene true 0 None None (Some 1%Q) None)) band =
              Val {| bands := [(band, r)];
                     properties := properties d;
                     footprint := footprint d |}.
Proof.
  assert (Hname : "RED" ∈ logical_names)
    by (apply (bool_decide_unpack _); vm_compute; exact I).
  split; [exact Hname | exact (select_bands_supported _ _ Hname)].
Defined.

Lemma select_bands_exact_match_witness :
  ("red" ∉ logical_names)
  /\ forall image : Image (H := Fake.engine),
       select_bands image "red" = Raise unsupported_index.
Proof.
  assert (Hname : "red" ∉ logical_names)
    by (apply (bool_decide_unpack _); vm_compute; exact I).
  split; [exact Hname |].
  intros image.
  exact (proj1 (proj1 (proj2 (select_bands_exact_match "red")) Hname image image)).
Defined.

(** * Collection Aggregator *)

Lemma wrong_method_lists_methods : Forall (mentions wrong_method) aggregation_methods.
Proof. repeat constructor; eexists; reflexivity. Qed.

Section aggregator.
Context `{Engine}.

Lemma time_in_range_spec (s e : Z) (d : ImageData) :
  EE.time_in_range s e d = true <->
  exists t, properties d !! "system:time_start" = Some (PNum t)
            /\ (inject_Z s <= t)%Q /\ (t < inject_Z e)%Q.
Proof.
  unfold EE.time_in_range.
  destruct (properties d !! "system:time_start") as [[| t |]|] eqn:Hprop;
    try (split; [discriminate | intros (t' & Heq & _); discriminate]).
  rewrite andb_true_iff, negb_true_iff, Qle_bool_iff.
  rewrite <- not_true_iff_false, Qle_bool_iff.
  split.
  - intros [Hs He]. exists t. split; [done | split; [done |]]. by apply Qnot_le_lt.
  - intros (t' & [= <-] & Hs & He). split; [done |]. by apply Qlt_not_le.
Qed.

(** C7: for each method name in mean, median, sum, min, max the Collection
    Aggregator opens the session, filters the named collection to the
    images captured at or after the start date and before the end date,
    and returns the image which the reducer of that very name makes of the
    filtered collection. *)
Theorem aggregate_supported (w : World)
    (collection_name start_date end_date aggregation_method : string) :
  aggregation_method ∈ aggregation_methods ->
  (exists r,
     (aggregation_method, r) ∈ reducers
     /\ aggregate_image_collection collection_name start_date end_date aggregation_method w
        = (Ok (EE.reduce r (EE.filterDate (ee.load w collection_name) start_date end_date)),
           opened w))
  /\ forall l s e,
       ee.load w collection_name = Val l ->
       EE.date_of (PStr start_date) = Val s ->
       EE.date_of (PStr end_date) = Val e ->
       EE.filterDate (ee.load w collection_name) start_date end_date
         = Val (List.filter (EE.time_in_range s e) l)
       /\ forall d, d ∈ List.filter (EE.time_in_range s e) l <->
            d ∈ l /\ exists t, properties d !! "system:time_start" = Some (PNum t)
                               /\ (inject_Z s <= t)%Q /\ (t < inject_Z e)%Q.
Proof.
  intros Hmethod. split.
  - unfold aggregation_methods in Hmethod.
    rewrite !elem_of_cons, elem_of_nil in Hmethod.
    destruct Hmethod as [-> | [-> | [-> | [-> | [-> | []]]]]];
      eexists; (split; [| reflexivity]); unfold reducers; set_solver.
  - intros l s e Hl Hs He. rewrite Hl. unfold EE.filterDate, mbind, computed_bind.
    rewrite Hs, He. split; [reflexivity |].
    intros d. rewrite <- time_in_range_spec, !list_elem_of_In, filter_In. tauto.
Qed.

(** C4, as the code has it: once the session is open, for a method name
    outside mean, median, sum, min, max the Collection Aggregator fails
    with a [ValueError] of Python, the class the source raises, whose
    message names the five valid methods, and it returns no image.  The
    error is raised after [ee.Initialize()] has run and the filtered
    collection has been built. *)
Theorem aggregate_unsupported (w : World)
    (collection_name start_date end_date aggregation_method : string) :
  aggregation_method ∉ aggregation_methods ->
  (ee.Initialize w).1 = Ok tt ->
  aggregate_image_collection collection_name start_date end_date aggregation_method w
    = (Raise wrong_method, opened w)
  /\ class_name wrong_method = "ValueError"
  /\ Forall (mentions wrong_method) aggregation_methods
  /\ forall image,
       (aggregate_image_collection collection_name start_date end_date aggregation_method w).1
         <> Ok image.
Proof.
  intros Hmethod _. unfold aggregation_methods in Hmethod.
  rewrite !not_elem_of_cons in Hmethod.
  destruct Hmethod as (Hmean & Hmedian & Hsum & Hmin & Hmax & _).
  assert (Hrun : aggregate_image_collection collection_name start_date end_date
                   aggregation_method w = (Raise wrong_method, opened w)).
  { unfold aggregate_image_collection, mbind, M_bind. simpl.
    apply String.eqb_neq in Hmean, Hmedian, Hsum, Hmin, Hmax.
    by rewrite Hmean, Hmedian, Hsum, Hmin, Hmax. }
  rewrite Hrun. split; [reflexivity | split; [reflexivity |]].
  split; [apply wrong_method_lists_methods | discriminate].
Qed.

End aggregator.

(** * Index Calculator *)

Lemma parse_EVI_formula :
  parse_expression "2.5 * ((NIR - RED) / (NIR + 6 * RED - 7.5 * BLUE + 1))" = Some EVI_formula.
Proof. vm_compute. reflexivity. Qed.

Section index_calculator.
Context `{Engine}.

Lemma EVI_operands (blue red nir : Image) :
  let vars : gmap string Image := {[ "NIR" := nir; "RED" := red; "BLUE" := blue ]} in
  vars !! "NIR" = Some nir /\ vars !! "RED" = Some red /\ vars !! "BLUE" = Some blue.
Proof.
  simpl. split; [| split]; reflexivity.
Qed.

Lemma calculateEVI_band (image blue red nir : Image) (out : ImageData) :
  calculateEVI image blue red nir = Val out -> exists evi, bands out = [("EVI", evi)].
Proof.
  unfold calculateEVI, EE.rename.
  destruct (EE.expression _ _ _) as [x|]; [| discriminate].
  cbn [mbind computed_bind].
  destruct (bands x) as [|[name r] [|]]; try discriminate.
  intros [= <-]. by eexists.
Qed.

(** C2: the Index Calculator gives every pixel at which the denominator
    NIR + 6 RED - 7.5 BLUE + 1 is not zero the value
    2.5 (NIR - RED) / (NIR + 6 RED - 7.5 BLUE + 1), computed on exact
    rationals, and the one band of its result is named EVI whatever the
    bands of the operands are called. *)
Theorem calculateEVI_formula (image blue red nir : Image) :
  (forall out, calculateEVI image blue red nir = Val out -> (bands out).*1 = ["EVI"])
  /\ forall d b r n,
       image = Val d -> single_band blue b -> single_band red r -> single_band nir n ->
       exists out evi,
         calculateEVI image blue red nir = Val out
         /\ bands out = [("EVI", evi)]
         /\ forall p vb vr vn,
              b p = Some vb -> r p = Some vr -> n p = Some vn ->
              ~ (vn + 6 * vr - 7.5 * vb + 1 == 0)%Q ->
              exists v, evi p = Some v
                        /\ (v == 2.5 * (vn - vr) / (vn + 6 * vr - 7.5 * vb + 1))%Q.
Proof.
  split.
  - intros out [evi ->]%calculateEVI_band. reflexivity.
  - intros d b r n -> (db & nb & -> & Hb) (dr & nr & -> & Hr) (dn & nn & -> & Hn).
    destruct (EVI_operands (Val db) (Val dr) (Val dn)) as (Hnir & Hred & Hblue).
    simpl in Hnir, Hred, Hblue.
    unfold calculateEVI, EE.expression. rewrite parse_EVI_formula.
    unfold EVI_formula.
    match goal with |- context [EE.operand ?m _] => set (vars := m) in * end.
    clearbody vars. cbn [EE.operand mbind computed_bind]. unfold Image in *.
    rewrite Hnir, Hred, Hblue. cbn [mbind computed_bind].
    rewrite Hb, Hr, Hn. simpl.
    eexists _, _. split; [reflexivity | split; [reflexivity |]].
    intros p vb vr vn Hvb Hvr Hvn Hden. cbn beta. rewrite Hvb, Hvr, Hvn. simpl.
    destruct (Qeq_bool _ 0) eqn:Hzero.
    + exfalso. apply Hden. by apply Qeq_bool_iff in Hzero.
    + eexists. split; [reflexivity |]. field. exact Hden.
Qed.

End index_calculator.

(** * Time Series Extractor *)

Lemma mapM_Ok {A B} (f : A -> pyresult B) (l : list A) (l' : list B) :
  mapM (M := pyresult) f l = Ok l' <-> Forall2 (fun a b => f a = Ok b) l l'.
Proof.
  revert l'. induction l as [|a l IH]; intros l'; cbn [mapM].
  - split; [intros [= <-]; constructor | by inversion 1].
  - unfold mbind, pyresult_bind at 1. destruct (f a) as [b|e] eqn:Hfa.
    + fold (@mbind pyresult _). destruct (mapM f l) as [k|e] eqn:Hrest; cbn.
      * split.
        -- intros [= <-]. constructor; [done | by apply IH].
        -- inversion 1 as [|? b' ? k' Hb Hk]; subst.
           apply IH in Hk. rewrite Hfa in Hb. by simplify_eq.
      * split; [discriminate |].
        inversion 1 as [|? b' ? k' Hb Hk]; subst. apply IH in Hk. discriminate.
    + split; [discriminate |].
      inversion 1 as [|? b' ? k' Hb Hk]; subst. rewrite Hfa in Hb. discriminate.
Qed.

Lemma mapM_Val {A B} (f : A -> computed B) (l : list A) (l' : list B) :
  mapM (M := computed) f l = Val l' <-> Forall2 (fun a b => f a = Val b) l l'.
Proof.
  revert l'. induction l as [|a l IH]; intros l'; cbn [mapM].
  - split; [intros [= <-]; constructor | by inversion 1].
  - unfold mbind, computed_bind at 1. destruct (f a) as [b|e] eqn:Hfa.
    + fold (@mbind computed _). destruct (mapM f l) as [k|e] eqn:Hrest; cbn.
      * split.
        -- intros [= <-]. constructor; [done | by apply IH].
        -- inversion 1 as [|? b' ? k' Hb Hk]; subst.
           apply IH in Hk. rewrite Hfa in Hb. by simplify_eq.
      * split; [discriminate |].
        inversion 1 as [|? b' ? k' Hb Hk]; subst. apply IH in Hk. discriminate.
    + split; [discriminate |].
      inversion 1 as [|? b' ? k' Hb Hk]; subst. rewrite Hfa in Hb. discriminate.
Qed.

Lemma mapM_Ok_total {A B} (g : A -> B) (l : list A) :
  mapM (M := pyresult) (fun a => Ok (g a)) l = Ok (g <$> l).
Proof. apply mapM_Ok. induction l; constructor; done. Qed.

Section extractor.
Context `{Engine}.

Lemma calc_evi_handle (image : Image) : calc_evi image = Ok (evi_handle image).
Proof. reflexivity. Qed.

Lemma reduce_region_handle (aoi : Geometry) (image : Image) :
  reduce_region aoi image = Ok (feature_handle aoi image).
Proof. reflexivity. Qed.

Lemma map_handles {A B} (f : computed A -> pyresult (computed B))
    (g : computed A -> computed B) (collection : computed (list A)) :
  (forall a, f a = Ok (g a)) ->
  ee.map f collection
    = Ok (l ← collection; mapM (M := computed) id ((fun a => g (Val a)) <$> l)).
Proof.
  intros Hf. destruct collection as [l|msg]; [| reflexivity].
  unfold ee.map.
  assert (Hmap : mapM (M := pyresult) (fun a => f (Val a)) l
                 = Ok ((fun a => g (Val a)) <$> l)).
  { apply mapM_Ok. induction l; constructor; [apply Hf | done]. }
  by rewrite Hmap.
Qed.

(** The extractor is one request: the features of the filtered collection
    are computed by the service and tabulated on arrival. *)
Lemma extractor_run (w : World) (collection_name start_date end_date : string)
    (aoi : Geometry) :
  calculate_time_series_EVI collection_name start_date end_date aoi w =
    (match features_of aoi (filtered w collection_name start_date end_date aoi) with
     | Val feats => time_series_of_features (ee.feature_info <$> feats)
     | Err msg => Raise (EEException msg)
     end, fetched w).
Proof.
  unfold calculate_time_series_EVI, mbind at 1 2, M_bind.
  cbn [ee.Initialize ee.ImageCollection].
  unfold mbind at 1 2 3, M_bind, liftR.
  rewrite (map_handles calc_evi evi_handle _ calc_evi_handle).
  rewrite (map_handles (reduce_region aoi) (feature_handle aoi) _ (reduce_region_handle aoi)).
  change (EE.filterBounds (EE.filterDate (ee.load _ collection_name) start_date end_date) aoi)
    with (filtered w collection_name start_date end_date aoi).
  unfold features_of.
  destruct (filtered w collection_name start_date end_date aoi) as [imgs|msg];
    [| reflexivity].
  cbn [mbind computed_bind].
  destruct (mapM id _) as [evis|msg]; [| reflexivity].
  cbn [mbind computed_bind].
  destruct (mapM id _) as [feats|msg]; reflexivity.
Qed.


Lemma evi_handle_Val (d e : ImageData) :
  evi_handle (Val d) = Val e ->
  (exists evi, bands e = [("EVI", evi)])
  /\ properties e !! "system:time_start"
     = Some (default PNone (properties d !! "system:time_start")).
Proof.
  unfold evi_handle, EE.set.
  destruct (calculateEVI _ _ _ _) as [x|] eqn:Hevi; [| discriminate].
  apply calculateEVI_band in Hevi as [evi Hevi].
  cbn [mbind computed_bind EE.get]. intros [= <-]. cbn [bands properties].
  split; [by eexists | apply lookup_insert_eq].
Qed.

(** The mean the service reports for an image of the one band EVI. *)
Lemma evi_band_mean (aoi : Geometry) (e : ImageData) (evi : Raster) :
  bands e = [("EVI", evi)] ->
  EE.dict_get (EE.reduceRegion (Val e) RMean aoi 30) "EVI"
    = Val match region_reduce RMean evi aoi 30 with
          | Some q => PNum q
          | None => PNone
          end.
Proof.
  intros Hbands. unfold EE.dict_get, EE.reduceRegion.
  cbn [mbind computed_bind]. rewrite Hbands. cbn [fmap list_fmap list_to_map foldr uncurry].
  by rewrite lookup_insert_eq.
Qed.

Lemma feature_handle_Val (aoi : Geometry) (e : ImageData) (evi : Raster) (t : pyval)
    (f : FeatureData) :
  bands e = [("EVI", evi)] ->
  properties e !! "system:time_start" = Some t ->
  feature_handle aoi (Val e) = Val f <->
  exists ms,
    EE.date_of t = Val ms
    /\ 0 <= year_of_millis ms <= 9999
    /\ f = {| geometry := None;
              feature_properties :=
                list_to_map (List.filter EE.transmitted
                  [ ("date", PStr (day_text ms));
                    ("EVI", match region_reduce RMean evi aoi 30 with
                            | Some q => PNum q
                            | None => PNone
                            end) ]) |}.
Proof.
  intros Hbands Htime. unfold feature_handle, EE.Feature.
  rewrite (evi_band_mean aoi e evi Hbands).
  unfold EE.format, EE.Date, EE.get.
  cbn [mbind computed_bind]. rewrite Htime.
  change (default PNone (Some t)) with t.
  destruct (EE.date_of t) as [ms|msg].
  2: { split; [discriminate | intros (ms & [=] & _)]. }
  cbn [mbind computed_bind mapM].
  change (String.eqb "YYYY-MM-dd" "YYYY-MM-dd") with true. cbn [negb].
  unfold year_of_millis, day_text, day_of_millis.
  destruct (civil_from_days (ms / millis_per_day)) as [[y m] day] eqn:Hcivil.
  destruct ((0 <=? y) && (y <=? 9999)) eqn:Hyear; cbn [mbind computed_bind].
  - apply andb_true_iff in Hyear as [Hy0%Z.leb_le Hy1%Z.leb_le]. split.
    + intros [= <-]. exists ms. rewrite Hcivil. split; [done | split; [done | reflexivity]].
    + intros (ms' & [= <-] & _ & ->). rewrite Hcivil. reflexivity.
  - split; [discriminate |].
    intros (ms' & [= <-] & Hy & _). rewrite Hcivil in Hy. cbn [fst] in Hy.
    apply andb_false_iff in Hyear as [Hy0%Z.leb_gt | Hy1%Z.leb_gt]; lia.
Qed.


End extractor.

(** ** The table built from the features *)

Lemma to_datetime_Ok (dates : list pyval) (idx : list scalar) :
  pd.to_datetime dates = Ok idx <->
  exists stamps, idx = STime <$> stamps
                 /\ Forall2 (fun v t => pd.to_datetime1 v = Ok t) dates stamps.
Proof.
  unfold pd.to_datetime. rewrite mapM_Ok. split.
  - revert idx. induction dates as [|v dates IH]; intros idx Hall.
    + inversion Hall; subst. exists []. split; [done | constructor].
    + inversion Hall as [|? sc ? idx' Hv Hrest]; subst.
      destruct (IH _ Hrest) as (stamps & -> & Hstamps).
      destruct (pd.to_datetime1 v) as [t|] eqn:Ht; [| discriminate].
      injection Hv as <-. exists (t :: stamps). split; [done | by constructor].
  - intros (stamps & -> & Hall).
    induction Hall as [|v t dates stamps Hv _ IH]; constructor; [| done].
    by rewrite Hv.
Qed.

Lemma time_series_of_features_Ok (fs : list FeatureInfo) (table : DataFrame) :
  time_series_of_features fs = Ok table <->
  exists dates values stamps,
    Forall2 (fun f v => f_properties f !! "date" = Some v) fs dates
    /\ Forall2 (fun f v => f_properties f !! "EVI" = Some v) fs values
    /\ Forall2 (fun v t => pd.to_datetime1 v = Ok t) dates stamps
    /\ table = {| index_name := Some "Date";
                  index := STime <$> stamps;
                  columns := [("EVI", SObj <$> values)] |}.
Proof.
  assert (Hsub : forall key (l : list pyval),
            mapM (M := pyresult) (fun f => subscript (f_properties f) key) fs = Ok l
            <-> Forall2 (fun f v => f_properties f !! key = Some v) fs l).
  { intros key l. rewrite mapM_Ok.
    split; intros Hall; (eapply Forall2_impl; [exact Hall |]);
      intros f v; unfold subscript; destruct (f_properties f !! key); congruence. }
  assert (Hframe : forall (stamps : list Timestamp) (values : list pyval),
            length stamps = length values ->
            (frame ← pd.DataFrame [("Date", STime <$> stamps); ("EVI", SObj <$> values)];
             pd.set_index frame "Date")
            = Ok {| index_name := Some "Date";
                    index := STime <$> stamps;
                    columns := [("EVI", SObj <$> values)] |}).
  { intros stamps values Hlen. unfold pd.DataFrame.
    cbn [forallb]. unfold pd.same_length. cbn [snd].
    rewrite !length_fmap, Hlen, Nat.eqb_refl.
    reflexivity. }
  unfold time_series_of_features. split.
  - destruct (mapM (λ f, subscript (f_properties f) "date") fs) as [dates|] eqn:Hdates;
      cbn [mbind pyresult_bind]; [| discriminate].
    destruct (mapM (λ f, subscript (f_properties f) "EVI") fs) as [values|] eqn:Hvalues;
      cbn [mbind pyresult_bind]; [| discriminate].
    destruct (pd.to_datetime dates) as [idx|] eqn:Hidx;
      cbn [mbind pyresult_bind]; [| discriminate].
    intros Hrun. apply Hsub in Hdates, Hvalues. apply to_datetime_Ok in Hidx as (stamps & -> & Hstamps).
    rewrite Hframe in Hrun.
    + injection Hrun as <-. by exists dates, values, stamps.
    + rewrite <- (Forall2_length _ _ _ Hstamps), <- (Forall2_length _ _ _ Hdates).
      apply (Forall2_length _ _ _ Hvalues).
  - intros (dates & values & stamps & Hdates & Hvalues & Hstamps & ->).
    pose proof (Forall2_length _ _ _ Hdates) as Hl1.
    pose proof (Forall2_length _ _ _ Hvalues) as Hl2.
    pose proof (Forall2_length _ _ _ Hstamps) as Hl3.
    apply Hsub in Hdates, Hvalues. rewrite Hdates. cbn [mbind pyresult_bind].
    rewrite Hvalues. cbn [mbind pyresult_bind].
    rewrite (proj2 (to_datetime_Ok dates _) (ex_intro _ stamps (conj eq_refl Hstamps))).
    cbn [mbind pyresult_bind]. apply Hframe. lia.
Qed.

Lemma to_datetime_day (ms : Z) :
  0 <= year_of_millis ms <= 9999 ->
  pd.to_datetime1 (PStr (day_text ms)) = pd.stamp (day_of_millis ms * nanos_per_day).
Proof.
  unfold year_of_millis, day_text, pd.to_datetime1.
  pose proof (day_text_round_trip (day_of_millis ms)) as Hrt.
  destruct (civil_from_days (day_of_millis ms)) as [[y m] d]. cbn [fst].
  intros Hy. destruct (Hrt Hy) as [-> ->]. reflexivity.
Qed.

Lemma stamp_Ok (ns : Z) (t : Timestamp) :
  pd.stamp ns = Ok t <-> pd.in_bounds ns = true /\ t = Stamp ns.
Proof.
  unfold pd.stamp. destruct (pd.in_bounds ns); split.
  - by intros [= <-].
  - by intros [_ ->].
  - discriminate.
  - by intros [? _].
Qed.

Section extractor_table.
Context `{Engine}.

Lemma mapM_id_fmap {A B} (g : A -> computed B) (l : list A) (l' : list B) :
  mapM (M := computed) id (g <$> l) = Val l' <-> Forall2 (fun a b => g a = Val b) l l'.
Proof. rewrite mapM_Val, Forall2_fmap_l. reflexivity. Qed.

Lemma features_of_Val (aoi : Geometry) (imgs : list ImageData) (feats : list FeatureData) :
  features_of aoi (Val imgs) = Val feats <->
  exists evis,
    Forall2 (fun d e => evi_handle (Val d) = Val e) imgs evis
    /\ Forall2 (fun e f => feature_handle aoi (Val e) = Val f) evis feats.
Proof.
  unfold features_of. cbn [mbind computed_bind]. split.
  - destruct (mapM id _) as [evis|] eqn:Hevis; cbn [mbind computed_bind]; [| discriminate].
    intros Hfeats. exists evis. split; by apply mapM_id_fmap.
  - intros (evis & Hevis & Hfeats). apply mapM_id_fmap in Hevis.
    destruct (mapM id _) as [evis'|msg] eqn:Hrun; cbn [mbind computed_bind].
    + injection Hevis as ->. by apply mapM_id_fmap.
    + discriminate.
Qed.

Lemma transmitted_lookup (text : string) (v : pyval) :
  let props : gmap string pyval :=
    list_to_map (List.filter EE.transmitted [("date", PStr text); ("EVI", v)]) in
  props !! "date" = Some (PStr text)
  /\ props !! "EVI" = if EE.transmitted ("EVI", v) then Some v else None.
Proof.
  unfold EE.transmitted. cbn [List.filter snd].
  destruct v, null_properties; cbn [list_to_map foldr uncurry]; split;
    rewrite ?lookup_insert_eq, ?lookup_insert_ne, ?lookup_insert_eq, ?lookup_empty by done;
    reflexivity.
Qed.

(** What the service reports for one image. *)
Lemma image_feature (aoi : Geometry) (d : ImageData) (f : FeatureData) :
  (exists e, evi_handle (Val d) = Val e /\ feature_handle aoi (Val e) = Val f) <->
  exists ms v,
    capture_time d = Val ms /\ 0 <= year_of_millis ms <= 9999
    /\ evi_mean aoi d = Val v
    /\ f = {| geometry := None;
              feature_properties :=
                list_to_map (List.filter EE.transmitted
                  [("date", PStr (day_text ms)); ("EVI", v)]) |}.
Proof.
  unfold capture_time, evi_mean. split.
  - intros (e & He & Hf). destruct (evi_handle_Val d e He) as [[evi Hbands] Htime].
    destruct (proj1 (feature_handle_Val aoi e evi _ f Hbands Htime) Hf)
      as (ms & Hms & Hy & Hfeq).
    rewrite He, (evi_band_mean aoi e evi Hbands). by eexists ms, _.
  - intros (ms & v & Hms & Hy & Hv & ->).
    destruct (evi_handle (Val d)) as [e|] eqn:He; [| discriminate].
    destruct (evi_handle_Val d e He) as [[evi Hbands] Htime].
    rewrite (evi_band_mean aoi e evi Hbands) in Hv. injection Hv as <-.
    exists e. split; [done |].
    apply (feature_handle_Val aoi e evi _ _ Hbands Htime). by exists ms.
Qed.

(** The table of an invocation, row by row: the rows are those of the
    images of the filtered collection, in the order of the collection. *)
Lemma extractor_table (w : World) (collection_name start_date end_date : string)
    (aoi : Geometry) (table : DataFrame) :
  (calculate_time_series_EVI collection_name start_date end_date aoi w).1 = Ok table ->
  exists imgs values,
    filtered w collection_name start_date end_date aoi = Val imgs
    /\ index_name table = Some "Date"
    /\ columns table = [("EVI", values)]
    /\ length (index table) = length imgs
    /\ length values = length imgs
    /\ forall i d, imgs !! i = Some d ->
         exists date value,
           index table !! i = Some date /\ values !! i = Some value
           /\ row_of aoi d date value
           /\ forall v, value = SObj v -> EE.transmitted ("EVI", v) = true.
Proof.
  rewrite extractor_run. cbn [fst].
  destruct (filtered w collection_name start_date end_date aoi) as [imgs|msg] eqn:Himgs.
  2: { unfold features_of. cbn [mbind computed_bind]. discriminate. }
  destruct (features_of aoi (Val imgs)) as [feats|] eqn:Hfeats; [| discriminate].
  apply features_of_Val in Hfeats as (evis & Hevis & Hfeats).
  intros (dates & values & stamps & Hdates & Hvalues & Hstamps & ->)%time_series_of_features_Ok.
  apply Forall2_fmap_l in Hdates, Hvalues.
  pose proof (Forall2_length _ _ _ Hevis) as Hl1.
  pose proof (Forall2_length _ _ _ Hfeats) as Hl2.
  pose proof (Forall2_length _ _ _ Hdates) as Hl3.
  pose proof (Forall2_length _ _ _ Hvalues) as Hl4.
  pose proof (Forall2_length _ _ _ Hstamps) as Hl5.
  exists imgs, (SObj <$> values). cbn [index_name columns index].
  rewrite !length_fmap.
  split; [done | split; [done | split; [done | split; [lia | split; [lia |]]]]].
  intros i d Hd.
  destruct (Forall2_lookup_l _ _ _ _ _ Hevis Hd) as (e & He & Hevi).
  destruct (Forall2_lookup_l _ _ _ _ _ Hfeats He) as (f & Hf & Hfeat).
  destruct (Forall2_lookup_l _ _ _ _ _ Hdates Hf) as (dv & Hdv & Hdate).
  destruct (Forall2_lookup_l _ _ _ _ _ Hvalues Hf) as (ev & Hev & Hevi_value).
  destruct (Forall2_lookup_l _ _ _ _ _ Hstamps Hdv) as (t & Ht & Hstamp).
  destruct (proj1 (image_feature aoi d f) (ex_intro _ e (conj Hevi Hfeat)))
    as (ms & v & Hms & Hy & Hv & ->).
  cbn [ee.feature_info f_properties feature_properties compose] in Hdate, Hevi_value.
  destruct (transmitted_lookup (day_text ms) v) as [Hdate' Hvalue'].
  cbv zeta in Hdate', Hvalue'. rewrite Hdate' in Hdate. rewrite Hvalue' in Hevi_value.
  injection Hdate as <-.
  destruct (EE.transmitted ("EVI", v)) eqn:Hsent; [| discriminate].
  injection Hevi_value as <-.
  rewrite (to_datetime_day ms Hy) in Hstamp. apply stamp_Ok in Hstamp as [_ ->].
  exists (day_stamp ms), (SObj v). rewrite !list_lookup_fmap, Ht, Hev.
  split; [done | split; [done | split; [by exists ms, v |]]].
  by intros v' [= <-].
Qed.

End extractor_table.

Lemma year_in_bounds (ms : Z) :
  pd.in_bounds (day_of_millis ms * nanos_per_day) = true ->
  0 <= year_of_millis ms <= 9999.
Proof.
  unfold pd.in_bounds, year_of_millis, nanos_per_day.
  rewrite andb_true_iff, !Z.ltb_lt. change (2 ^ 63) with 9223372036854775808.
  intros [Hlo Hhi].
  pose proof (civil_round_trip (day_of_millis ms)) as Hrt.
  destruct (civil_from_days (day_of_millis ms)) as [[y m] d]. cbn [fst].
  destruct Hrt as (_ & _ & _ & Hy).
  set (z := day_of_millis ms) in *. clearbody z.
  assert (Hz : -106752 < z < 106752) by lia.
  assert (Hera : 4 <= (z + 719468) / 146097 <= 5)
    by (Z.div_mod_to_equations; lia).
  lia.
Qed.

Section extractor_total.
Context `{Engine}.

Lemma features_exist (aoi : Geometry) (imgs : list ImageData) :
  Forall (tabulated aoi) imgs ->
  exists evis feats dates values stamps,
    Forall2 (fun d e => evi_handle (Val d) = Val e) imgs evis
    /\ Forall2 (fun e f => feature_handle aoi (Val e) = Val f) evis feats
    /\ Forall2 (fun f v => f_properties (ee.feature_info f) !! "date" = Some v) feats dates
    /\ Forall2 (fun f v => f_properties (ee.feature_info f) !! "EVI" = Some v) feats values
    /\ Forall2 (fun v t => pd.to_datetime1 v = Ok t) dates stamps.
Proof.
  induction 1 as [|d imgs (ms & v & Hms & Hbound & Hv & Hsent) _ IH].
  - exists [], [], [], [], []. repeat split; constructor.
  - destruct IH as (evis & feats & dates & values & stamps & H1 & H2 & H3 & H4 & H5).
    pose proof (year_in_bounds ms Hbound) as Hy.
    destruct (proj2 (image_feature aoi d _)
                (ex_intro _ ms (ex_intro _ v (conj Hms (conj Hy (conj Hv eq_refl))))))
      as (e & He & Hf).
    exists (e :: evis),
      ({| geometry := None;
          feature_properties :=
            list_to_map (List.filter EE.transmitted
              [("date", PStr (day_text ms)); ("EVI", v)]) |} :: feats),
      (PStr (day_text ms) :: dates), (v :: values),
      (Stamp (day_of_millis ms * nanos_per_day) :: stamps).
    destruct (transmitted_lookup (day_text ms) v) as [Hdate Hvalue].
    cbv zeta in Hdate, Hvalue. rewrite Hsent in Hvalue.
    split; [by constructor |].
    split; [by constructor |].
    split; [by constructor |].
    split; [by constructor |].
    constructor; [| done]. rewrite (to_datetime_day ms Hy). by apply stamp_Ok.
Qed.

(** The extractor returns a table whenever every image of the filtered
    collection can be tabulated. *)
Lemma extractor_total (w : World) (collection_name start_date end_date : string)
    (aoi : Geometry) (imgs : list ImageData) :
  filtered w collection_name start_date end_date aoi = Val imgs ->
  Forall (tabulated aoi) imgs ->
  exists table,
    (calculate_time_series_EVI collection_name start_date end_date aoi w).1 = Ok table.
Proof.
  intros Himgs Hall. rewrite extractor_run, Himgs. cbn [fst].
  destruct (features_exist aoi imgs Hall)
    as (evis & feats & dates & values & stamps & H1 & H2 & H3 & H4 & H5).
  rewrite (proj2 (features_of_Val aoi imgs feats) (ex_intro _ evis (conj H1 H2))).
  eexists. apply time_series_of_features_Ok.
  exists dates, values, stamps.
  split; [by apply Forall2_fmap_l | split; [by apply Forall2_fmap_l | split; [done | reflexivity]]].
Qed.

End extractor_total.

Lemma mapM_subscript_missing (key : string) (fs : list FeatureInfo) :
  Exists (fun f => f_properties f !! key = None) fs ->
  mapM (M := pyresult) (fun f => subscript (f_properties f) key) fs = Raise (KeyError key).
Proof.
  induction fs as [|f fs IH]; intros Hex; [by inversion Hex |].
  cbn [mapM]. inversion Hex as [? ? Hhead | ? ? Htail]; subst.
  - assert (Hsub : subscript (f_properties f) key = Raise (KeyError key))
      by (unfold subscript; by rewrite Hhead).
    by rewrite Hsub.
  - rewrite (IH Htail). unfold subscript. by destruct (f_properties f !! key).
Qed.

Section no_data.
Context `{Engine}.

Lemma features_computed (aoi : Geometry) (imgs : list ImageData) :
  Forall (computable aoi) imgs ->
  exists feats,
    features_of aoi (Val imgs) = Val feats
    /\ Forall2 (fun d f => exists ms v,
                  capture_time d = Val ms /\ 0 <= year_of_millis ms <= 9999
                  /\ evi_mean aoi d = Val v
                  /\ f = {| geometry := None;
                            feature_properties :=
                              list_to_map (List.filter EE.transmitted
                                [("date", PStr (day_text ms)); ("EVI", v)]) |})
         imgs feats.
Proof.
  intros Hall.
  assert (Hex : exists evis feats,
            Forall2 (fun d e => evi_handle (Val d) = Val e) imgs evis
            /\ Forall2 (fun e f => feature_handle aoi (Val e) = Val f) evis feats
            /\ Forall2 (fun d f => exists ms v,
                  capture_time d = Val ms /\ 0 <= year_of_millis ms <= 9999
                  /\ evi_mean aoi d = Val v
                  /\ f = {| geometry := None;
                            feature_properties :=
                              list_to_map (List.filter EE.transmitted
                                [("date", PStr (day_text ms)); ("EVI", v)]) |})
                 imgs feats).
  { induction Hall as [|d imgs (ms & v & Hms & Hy & Hv) _ IH].
    - exists [], []. repeat split; constructor.
    - destruct IH as (evis & feats & H1 & H2 & H3).
      destruct (proj2 (image_feature aoi d _)
                  (ex_intro _ ms (ex_intro _ v (conj Hms (conj Hy (conj Hv eq_refl))))))
        as (e & He & Hf).
      eexists (e :: evis), (_ :: feats).
      split; [by constructor | split; [constructor; [exact Hf | done] |]].
      constructor; [| done]. by exists ms, v. }
  destruct Hex as (evis & feats & H1 & H2 & H3).
  exists feats. split; [| done]. apply features_of_Val. by exists evis.
Qed.

(** Where the service leaves null properties out, an image without data
    makes the subscript ['EVI'] fail. *)
Lemma extractor_key_error (w : World) (collection_name start_date end_date : string)
    (aoi : Geometry) (imgs : list ImageData) (i : nat) (d : ImageData) :
  null_properties = false ->
  filtered w collection_name start_date end_date aoi = Val imgs ->
  Forall (computable aoi) imgs ->
  imgs !! i = Some d ->
  evi_mean aoi d = Val PNone ->
  (calculate_time_series_EVI collection_name start_date end_date aoi w).1
    = Raise (KeyError "EVI").
Proof.
  intros Hnulls Himgs Hall Hd Hnone.
  rewrite extractor_run, Himgs. cbn [fst].
  destruct (features_computed aoi imgs Hall) as (feats & -> & Hfeats).
  unfold time_series_of_features.
  assert (Hdates : exists dates,
            mapM (M := pyresult) (fun f => subscript (f_properties f) "date")
              (ee.feature_info <$> feats) = Ok dates).
  { clear Hd Himgs Hall. induction Hfeats as [|d' f imgs feats (ms & v & _ & _ & _ & ->) _ IH].
    - by exists [].
    - destruct IH as [dates Hdates].
      exists (PStr (day_text ms) :: dates). cbn [fmap list_fmap mapM].
      rewrite Hdates. unfold mbind, pyresult_bind, subscript.
      cbn [ee.feature_info f_properties feature_properties].
      by rewrite (proj1 (transmitted_lookup (day_text ms) v)). }
  destruct Hdates as [dates ->]. cbn [mbind pyresult_bind].
  rewrite mapM_subscript_missing; [reflexivity |].
  destruct (Forall2_lookup_l _ _ _ _ _ Hfeats Hd) as (f & Hf & ms & v & _ & _ & Hv & Heq).
  rewrite Hnone in Hv. injection Hv as <-.
  apply Exists_exists. exists (ee.feature_info f). split.
  - apply (list_elem_of_lookup_2 _ i). by rewrite list_lookup_fmap, Hf.
  - rewrite Heq. cbn [ee.feature_info f_properties feature_properties].
    rewrite (proj2 (transmitted_lookup (day_text ms) PNone)).
    unfold EE.transmitted. cbn [snd]. by rewrite Hnulls.
Qed.

End no_data.

Section extractor_claims.
Context `{Engine}.

Lemma day_stamp_le (ms ms' : Z) :
  date_le (day_stamp ms) (day_stamp ms') <-> day_of_millis ms <= day_of_millis ms'.
Proof. unfold date_le, day_stamp, nanos_per_day. lia. Qed.

(** C1, as the code has it: the rows of the returned table stand in the
    order in which the service returns the images of the filtered
    collection, row [i] dated with the capture day of image [i]; nothing
    sorts them.  The table is ascending by date exactly when the service
    returns the images in ascending order of capture day. *)
Theorem extractor_keeps_service_order (w : World)
    (collection_name start_date end_date : string) (aoi : Geometry)
    (table : DataFrame) (imgs : list ImageData) :
  (calculate_time_series_EVI collection_name start_date end_date aoi w).1 = Ok table ->
  filtered w collection_name start_date end_date aoi = Val imgs ->
  Forall2 (fun d date => exists ms, capture_time d = Val ms /\ date = day_stamp ms)
    imgs (index table)
  /\ (ascending (index table) <-> captured_in_order imgs).
Proof.
  intros Hrun Himgs.
  destruct (extractor_table _ _ _ _ _ _ Hrun)
    as (imgs' & values & Himgs' & _ & _ & Hlen & _ & Hrows).
  rewrite Himgs in Himgs'. injection Himgs' as <-.
  assert (Hdates : forall i d, imgs !! i = Some d ->
            exists ms, capture_time d = Val ms /\ index table !! i = Some (day_stamp ms)).
  { intros i d Hd.
    destruct (Hrows i d Hd) as (date & value & Hdate & _ & (ms & v & Hms & -> & _) & _).
    by exists ms. }
  split.
  - apply Forall2_same_length_lookup_2; [done |].
    intros i d date Hd Hdate. destruct (Hdates i d Hd) as (ms & Hms & Hdate').
    exists ms. split; [done | congruence].
  - split.
    + intros Hasc i d d' ms ms' Hd Hd' Hms Hms'.
      destruct (Hdates i d Hd) as (ms1 & Hms1 & Hdate).
      destruct (Hdates (S i) d' Hd') as (ms2 & Hms2 & Hdate').
      rewrite Hms in Hms1. rewrite Hms' in Hms2.
      injection Hms1 as <-. injection Hms2 as <-.
      apply day_stamp_le. by apply (Hasc i).
    + intros Horder i a b Ha Hb.
      destruct (lookup_lt_is_Some_2 imgs i) as [d Hd];
        [rewrite <- Hlen; by apply lookup_lt_Some in Ha |].
      destruct (lookup_lt_is_Some_2 imgs (S i)) as [d' Hd'];
        [rewrite <- Hlen; by apply lookup_lt_Some in Hb |].
      destruct (Hdates i d Hd) as (ms & Hms & Hdate).
      destruct (Hdates (S i) d' Hd') as (ms' & Hms' & Hdate').
      rewrite Ha in Hdate. rewrite Hb in Hdate'.
      injection Hdate as ->. injection Hdate' as ->.
      apply day_stamp_le. by apply (Horder i d d').
Qed.

(** C8: the returned table has one row for each image of the filtered
    collection and no other: its length is the number of images, and row
    [i] pairs the capture day of image [i] with the mean of its EVI over
    the area of interest.  Images of the same day keep a row each. *)
Theorem extractor_row_count (w : World)
    (collection_name start_date end_date : string) (aoi : Geometry)
    (table : DataFrame) (imgs : list ImageData) :
  (calculate_time_series_EVI collection_name start_date end_date aoi w).1 = Ok table ->
  filtered w collection_name start_date end_date aoi = Val imgs ->
  length (index table) = length imgs
  /\ exists values,
       columns table = [("EVI", values)]
       /\ length values = length imgs
       /\ forall i d, imgs !! i = Some d ->
            exists date value,
              index table !! i = Some date /\ values !! i = Some value
              /\ row_of aoi d date value.
Proof.
  intros Hrun Himgs.
  destruct (extractor_table _ _ _ _ _ _ Hrun)
    as (imgs' & values & Himgs' & _ & Hcols & Hlen & Hlen' & Hrows).
  rewrite Himgs in Himgs'. injection Himgs' as <-.
  split; [done |]. exists values. split; [done | split; [done |]].
  intros i d Hd. destruct (Hrows i d Hd) as (date & value & Hdate & Hvalue & Hrow & _).
  by exists date, value.
Qed.

(** C5, as the code has it: when the remote reduction yields no data for
    an image and the service transmits the null as a property of the
    feature, the returned table keeps the row of that image, dated with
    its capture day and holding the null, so the row is neither dropped
    nor given another number.  A table is returned only by such a service:
    where the service leaves null properties out of the feature, the
    subscript ['EVI'] fails, and when the features of all the images can
    be computed the call raises [KeyError] and returns no table. *)
Theorem extractor_no_data (w : World)
    (collection_name start_date end_date : string) (aoi : Geometry)
    (imgs : list ImageData) (i : nat) (d : ImageData) :
  filtered w collection_name start_date end_date aoi = Val imgs ->
  imgs !! i = Some d ->
  evi_mean aoi d = Val PNone ->
  (forall table,
     (calculate_time_series_EVI collection_name start_date end_date aoi w).1 = Ok table ->
     null_properties = true
     /\ length (index table) = length imgs
     /\ exists ms values,
          capture_time d = Val ms
          /\ index table !! i = Some (day_stamp ms)
          /\ columns table = [("EVI", values)]
          /\ values !! i = Some (SObj PNone))
  /\ (null_properties = false ->
      Forall (computable aoi) imgs ->
      (calculate_time_series_EVI collection_name start_date end_date aoi w).1
        = Raise (KeyError "EVI")).
Proof.
  intros Himgs Hd Hnone. split.
  - intros table Hrun.
    destruct (extractor_table _ _ _ _ _ _ Hrun)
      as (imgs' & values & Himgs' & _ & Hcols & Hlen & _ & Hrows).
    rewrite Himgs in Himgs'. injection Himgs' as <-.
    destruct (Hrows i d Hd)
      as (date & value & Hdate & Hvalue & (ms & v & Hms & -> & Hv & ->) & Hsent).
    rewrite Hnone in Hv. injection Hv as <-.
    split; [exact (Hsent PNone eq_refl) | split; [done |]].
    by exists ms, values.
  - intros Hnulls Hall. by apply (extractor_key_error w _ _ _ aoi imgs i d).
Qed.

(** C9: the table depends on the arguments and on the named collection of
    the catalogue only.  Two sessions that hold the same collection give
    the same result, whatever their state; a call leaves the catalogue as
    it was; and a second call with the same arguments gives the result of
    the first. *)
Theorem extractor_deterministic (w w' : World)
    (collection_name start_date end_date : string) (aoi : Geometry) :
  assets w collection_name = assets w' collection_name ->
  (calculate_time_series_EVI collection_name start_date end_date aoi w).1
    = (calculate_time_series_EVI collection_name start_date end_date aoi w').1
  /\ assets (calculate_time_series_EVI collection_name start_date end_date aoi w).2
     = assets w
  /\ (calculate_time_series_EVI collection_name start_date end_date aoi
        (calculate_time_series_EVI collection_name start_date end_date aoi w).2).1
     = (calculate_time_series_EVI collection_name start_date end_date aoi w).1.
Proof.
  intros Hassets. rewrite !extractor_run. cbn [fst snd].
  unfold filtered, ee.load. cbn [fetched assets]. rewrite Hassets.
  split; [reflexivity | split; reflexivity].
Qed.

End extractor_claims.

(** ** The extractor on the in-memory engine *)

(** The scenario of two scenes, of 1 and 2 June, over the unit square: a
    table of two rows in that order, with the EVI of each scene. *)
Example extractor_two_scenes :
  (calculate_time_series_EVI "TEST/S2" "2023-06-01" "2023-06-03" Fake.unit_square
     (Fake.world true [clear_june_1 true; clear_june_2 true])).1
  = Ok {| index_name := Some "Date";
          index := [STime (Stamp 1685577600000000000); STime (Stamp 1685664000000000000)];
          columns := [("EVI", [SObj (PNum (20 # 41)); SObj (PNum (15 # 53))])] |}.
Proof. vm_compute. reflexivity. Qed.

(** C1 fails as stated: the service returns the scene of 2 June before the
    scene of 1 June, and so does the table. *)
Lemma extractor_unsorted_counterexample :
  exists table,
    (calculate_time_series_EVI "TEST/S2" "2023-06-01" "2023-06-03" Fake.unit_square
       (Fake.world true [clear_june_2 true; clear_june_1 true])).1 = Ok table
    /\ index table = [day_stamp Fake.june_2; day_stamp Fake.june_1]
    /\ ~ ascending (index table).
Proof.
  eexists. split; [vm_compute; reflexivity |]. split; [reflexivity |].
  intros Hasc. specialize (Hasc 0%nat _ _ eq_refl eq_refl). vm_compute in Hasc.
  by apply Hasc.
Qed.

Lemma extractor_keeps_service_order_witness :
  let w := Fake.world true [clear_june_2 true; clear_june_1 true] in
  let imgs := [clear_june_2 true; clear_june_1 true] in
  exists table,
    (calculate_time_series_EVI "TEST/S2" "2023-06-01" "2023-06-03" Fake.unit_square w).1
      = Ok table
    /\ filtered w "TEST/S2" "2023-06-01" "2023-06-03" Fake.unit_square = Val imgs
    /\ Forall2 (fun d date => exists ms, capture_time d = Val ms /\ date = day_stamp ms)
         imgs (index table)
    /\ (ascending (index table) <-> captured_in_order imgs).
Proof.
  intros w imgs. eexists.
  assert (Hrun : (calculate_time_series_EVI "TEST/S2" "2023-06-01" "2023-06-03"
                    Fake.unit_square w).1 = Ok _) by (vm_compute; reflexivity).
  assert (Himgs : filtered w "TEST/S2" "2023-06-01" "2023-06-03" Fake.unit_square
                  = Val imgs) by (vm_compute; reflexivity).
  split; [exact Hrun | split; [exact Himgs |]].
  exact (extractor_keeps_service_order w _ _ _ _ _ imgs Hrun Himgs).
Defined.

Lemma extractor_row_count_witness :
  let w := Fake.world true [clear_june_1 true; masked_june_1 true] in
  let imgs := [clear_june_1 true; masked_june_1 true] in
  exists table,
    (calculate_time_series_EVI "TEST/S2" "2023-06-01" "2023-06-03" Fake.unit_square w).1
      = Ok table
    /\ filtered w "TEST/S2" "2023-06-01" "2023-06-03" Fake.unit_square = Val imgs
    /\ index table = [day_stamp Fake.june_1; day_stamp Fake.june_1]
    /\ length (index table) = length imgs.
Proof.
  intros w imgs. eexists.
  assert (Hrun : (calculate_time_series_EVI "TEST/S2" "2023-06-01" "2023-06-03"
                    Fake.unit_square w).1 = Ok _) by (vm_compute; reflexivity).
  assert (Himgs : filtered w "TEST/S2" "2023-06-01" "2023-06-03" Fake.unit_square
                  = Val imgs) by (vm_compute; reflexivity).
  split; [exact Hrun | split; [exact Himgs | split; [reflexivity |]]].
  exact (proj1 (extractor_row_count w _ _ _ _ _ imgs Hrun Himgs)).
Defined.

(** C5 fails as stated: with a service that leaves null properties out,
    the scene without data makes the call raise, and no table is
    returned. *)
Lemma extractor_no_data_counterexample :
  let w := Fake.world false [clear_june_1 false; masked_june_1 false] in
  filtered (H := Fake.engine_with false) w "TEST/S2" "2023-06-01" "2023-06-03"
    Fake.unit_square = Val [clear_june_1 false; masked_june_1 false]
  /\ evi_mean (H := Fake.engine_with false) Fake.unit_square (masked_june_1 false)
     = Val PNone
  /\ (calculate_time_series_EVI (H := Fake.engine_with false)
        "TEST/S2" "2023-06-01" "2023-06-03" Fake.unit_square w).1
     = Raise (KeyError "EVI").
Proof. split; [| split]; vm_compute; reflexivity. Qed.

Lemma extractor_no_data_witness :
  let w := Fake.world true [clear_june_1 true; masked_june_1 true] in
  exists table,
    (calculate_time_series_EVI "TEST/S2" "2023-06-01" "2023-06-03" Fake.unit_square w).1
      = Ok table
    /\ length (index table) = 2%nat
    /\ exists ms values,
         capture_time (masked_june_1 true) = Val ms
         /\ index table !! 1%nat = Some (day_stamp ms)
         /\ columns table = [("EVI", values)]
         /\ values !! 1%nat = Some (SObj PNone).
Proof.
  intros w. eexists.
  assert (Hrun : (calculate_time_series_EVI "TEST/S2" "2023-06-01" "2023-06-03"
                    Fake.unit_square w).1 = Ok _) by (vm_compute; reflexivity).
  assert (Himgs : filtered w "TEST/S2" "2023-06-01" "2023-06-03" Fake.unit_square
                  = Val [clear_june_1 true; masked_june_1 true])
    by (vm_compute; reflexivity).
  assert (Hnone : evi_mean Fake.unit_square (masked_june_1 true) = Val PNone)
    by (vm_compute; reflexivity).
  split; [exact Hrun |].
  exact (proj2 (proj1 (extractor_no_data w _ _ _ _ _ 1%nat _ Himgs eq_refl Hnone) _ Hrun)).
Defined.

Lemma extractor_deterministic_witness :
  let w := Fake.world true [clear_june_1 true; clear_june_2 true] in
  let w' := {| initialized := true; requests := 7; assets := assets w |} in
  (calculate_time_series_EVI "TEST/S2" "2023-06-01" "2023-06-03" Fake.unit_square w).1
    = (calculate_time_series_EVI "TEST/S2" "2023-06-01" "2023-06-03" Fake.unit_square w').1.
Proof.
  intros w w'.
  exact (proj1 (extractor_deterministic w w' "TEST/S2" "2023-06-01" "2023-06-03"
                  Fake.unit_square eq_refl)).
Defined.

(** ** The aggregator and the index on the in-memory engine *)

Lemma aggregate_supported_witness :
  let w := Fake.world true [clear_june_1 true; clear_june_2 true] in
  "median" ∈ aggregation_methods
  /\ exists r,
       ((("median", r)) ∈ reducers)
       /\ aggregate_image_collection "TEST/S2" "2023-06-01" "2023-06-02" "median" w
          = (Ok (EE.reduce r (EE.filterDate (ee.load w "TEST/S2") "2023-06-01" "2023-06-02")),
             opened w).
Proof.
  intros w.
  assert (Hmethod : "median" ∈ aggregation_methods)
    by (apply (bool_decide_unpack _); vm_compute; exact I).
  split; [exact Hmethod |].
  exact (proj1 (aggregate_supported w "TEST/S2" "2023-06-01" "2023-06-02" "median" Hmethod)).
Defined.

(** C4 fails as stated: the exception raised for the method average is a
    [ValueError], not an error of a class of its own. *)
Lemma aggregate_unsupported_counterexample :
  let w := Fake.world true [clear_june_1 true; clear_june_2 true] in
  ("average" ∉ aggregation_methods)
  /\ exists e,
       (aggregate_image_collection "TEST/S2" "2023-06-01" "2023-06-02" "average" w).1
         = Raise e
       /\ class_name e = "ValueError"
       /\ class_name e <> "UnsupportedAggregationError".
Proof.
  intros w. split; [apply (bool_decide_unpack _); vm_compute; exact I |].
  eexists. split; [reflexivity | split; [reflexivity | discriminate]].
Qed.

Lemma aggregate_unsupported_witness :
  let w := Fake.world true [clear_june_1 true; clear_june_2 true] in
  ("average" ∉ aggregation_methods)
  /\ (ee.Initialize w).1 = Ok tt
  /\ aggregate_image_collection "TEST/S2" "2023-06-01" "2023-06-02" "average" w
     = (Raise wrong_method, opened w)
  /\ class_name wrong_method = "ValueError".
Proof.
  intros w.
  assert (Hmethod : "average" ∉ aggregation_methods)
    by (apply (bool_decide_unpack _); vm_compute; exact I).
  split; [exact Hmethod | split; [reflexivity |]].
  destruct (aggregate_unsupported w "TEST/S2" "2023-06-01" "2023-06-02" "average"
              Hmethod eq_refl) as (Hrun & Hclass & _).
  split; [exact Hrun | exact Hclass].
Defined.

Lemma calculateEVI_formula_witness :
  let image : Image := Val (clear_june_2 true) in
  exists out evi,
    calculateEVI image (EE.select image "B2") (EE.select image "B4") (EE.select image "B8")
      = Val out
    /\ bands out = [("EVI", evi)]
    /\ exists v, evi (0, 0) = Some v /\ (v == 15 # 53)%Q.
Proof.
  intros image.
  assert (Hblue : single_band (EE.select image "B2") (fun _ => Some 0.1%Q))
    by (eexists _, _; split; reflexivity).
  assert (Hred : single_band (EE.select image "B4") (fun _ => Some 0.3%Q))
    by (eexists _, _; split; reflexivity).
  assert (Hnir : single_band (EE.select image "B8") (fun _ => Some 0.6%Q))
    by (eexists _, _; split; reflexivity).
  destruct (proj2 (calculateEVI_formula image (EE.select image "B2") (EE.select image "B4")
                     (EE.select image "B8")) _ _ _ _ eq_refl Hblue Hred Hnir)
    as (out & evi & Hout & Hbands & Hpixel).
  exists out, evi. split; [exact Hout | split; [exact Hbands |]].
  assert (Hden : ~ (0.6 + 6 * 0.3 - 7.5 * 0.1 + 1 == 0)%Q) by (intros Hzero; discriminate).
  destruct (Hpixel (0, 0) 0.1%Q 0.3%Q 0.6%Q eq_refl eq_refl eq_refl Hden) as (v & Hv & Heq).
  exists v. split; [exact Hv |]. rewrite Heq. reflexivity.
Defined.

(** * Further properties of the Time Series Extractor *)

Section evi_bands.
Context `{Engine}.

(** The EVI image of an image: it exists exactly when the image has the
    bands B2, B4 and B8, and it is made of them. *)
Lemma evi_handle_cases (d : ImageData) :
  match EE.find_band "B2" (bands d), EE.find_band "B4" (bands d),
        EE.find_band "B8" (bands d) with
  | Some b, Some r, Some n =>
      evi_handle (Val d)
      = Val {| bands := [("EVI", evi_raster b r n)];
               properties :=
                 <["system:time_start" :=
                     default PNone (properties d !! "system:time_start")]>
                   (expression_properties (properties d));
               footprint := footprint d |}
  | _, _, _ => exists msg, evi_handle (Val d) = Err msg
  end.
Proof.
  unfold evi_handle, calculateEVI, EE.expression, EE.select.
  rewrite parse_EVI_formula. unfold EVI_formula. cbn [mbind computed_bind].
  destruct (EE.find_band "B2" (bands d)) as [b|];
    destruct (EE.find_band "B4" (bands d)) as [r|];
    destruct (EE.find_band "B8" (bands d)) as [n|];
    try (eexists; reflexivity); reflexivity.
Qed.

End evi_bands.

Section extractor_range.
Context `{Engine}.

Lemma filtered_Val (w : World) (collection_name start_date end_date : string)
    (aoi : Geometry) (imgs : list ImageData) :
  filtered w collection_name start_date end_date aoi = Val imgs <->
  exists l s e,
    ee.load w collection_name = Val l
    /\ EE.date_of (PStr start_date) = Val s
    /\ EE.date_of (PStr end_date) = Val e
    /\ imgs = List.filter (EE.in_bounds aoi) (List.filter (EE.time_in_range s e) l).
Proof.
  unfold filtered, EE.filterBounds, EE.filterDate.
  destruct (ee.load w collection_name) as [l|]; cbn [mbind computed_bind].
  2: { split; [discriminate | by intros (? & ? & ? & [=] & _)]. }
  destruct (EE.date_of (PStr start_date)) as [s|]; cbn [mbind computed_bind].
  2: { split; [discriminate | by intros (? & ? & ? & _ & [=] & _)]. }
  destruct (EE.date_of (PStr end_date)) as [e|]; cbn [mbind computed_bind].
  2: { split; [discriminate | by intros (? & ? & ? & _ & _ & [=] & _)]. }
  split.
  - intros [= <-]. by exists l, s, e.
  - by intros (? & ? & ? & [= <-] & [= <-] & [= <-] & ->).
Qed.

(** An image the date filter keeps has a capture time, within the range. *)
Lemma in_range_capture (s e : Z) (d : ImageData) :
  EE.time_in_range s e d = true ->
  exists ms, capture_time d = Val ms /\ s <= ms < e.
Proof.
  intros (t & Ht & Hs & He)%time_in_range_spec.
  exists (Qfloor t). unfold capture_time. rewrite Ht. split; [reflexivity |].
  split.
  - rewrite <- (Qfloor_Z s). by apply Qfloor_resp_le.
  - rewrite Zlt_Qlt. eapply Qle_lt_trans; [apply Qfloor_le | exact He].
Qed.

Lemma filtered_capture (w : World) (collection_name start_date end_date : string)
    (aoi : Geometry) (imgs : list ImageData) (s e : Z) :
  filtered w collection_name start_date end_date aoi = Val imgs ->
  EE.date_of (PStr start_date) = Val s ->
  EE.date_of (PStr end_date) = Val e ->
  Forall (fun d => exists ms, capture_time d = Val ms /\ s <= ms < e) imgs.
Proof.
  intros (l & s' & e' & _ & Hs & He & ->)%filtered_Val Hs' He'.
  rewrite Hs in Hs'. rewrite He in He'. injection Hs' as ->. injection He' as ->.
  apply Forall_forall. intros d Hd.
  apply list_elem_of_In, filter_In in Hd as [Hd _].
  apply filter_In in Hd as [_ Hd]. by apply in_range_capture.
Qed.

End extractor_range.

(** A day pandas can read is a day the service reads, at the same
    midnight. *)
Lemma to_datetime_date_of (text : string) (ns : Z) :
  pd.to_datetime1 (PStr text) = Ok (Stamp ns) ->
  exists day,
    EE.date_of (PStr text) = Val (day * millis_per_day)
    /\ ns = day * nanos_per_day /\ pd.in_bounds ns = true.
Proof.
  unfold pd.to_datetime1, EE.date_of.
  destruct (parse_ymd text) as [[[y m] d]|]; [| discriminate].
  intros [Hbound [= ->]]%stamp_Ok. by exists (days_from_civil y m d).
Qed.

Lemma day_stamp_range (day_s day_e ms : Z) :
  day_s * millis_per_day <= ms < day_e * millis_per_day ->
  day_s * nanos_per_day <= day_of_millis ms * nanos_per_day < day_e * nanos_per_day.
Proof.
  unfold day_of_millis, millis_per_day, nanos_per_day. intros Hms.
  assert (day_s <= ms / 86400000 < day_e) by (Z.div_mod_to_equations; lia).
  lia.
Qed.

Section extractor_edges.
Context `{Engine}.

(** Every date of the returned table lies in the requested range: at or
    after midnight of the start date and before midnight of the end date,
    as pandas reads the two texts. *)
Theorem extractor_dates_in_range (w : World)
    (collection_name start_date end_date : string) (aoi : Geometry)
    (table : DataFrame) (a b : Z) :
  (calculate_time_series_EVI collection_name start_date end_date aoi w).1 = Ok table ->
  pd.to_datetime1 (PStr start_date) = Ok (Stamp a) ->
  pd.to_datetime1 (PStr end_date) = Ok (Stamp b) ->
  Forall (fun date => exists ns, date = STime (Stamp ns) /\ a <= ns < b) (index table).
Proof.
  intros Hrun (day_s & Hs & -> & _)%to_datetime_date_of
    (day_e & He & -> & _)%to_datetime_date_of.
  destruct (extractor_table _ _ _ _ _ _ Hrun)
    as (imgs & values & Himgs & _ & _ & Hlen & _ & Hrows).
  pose proof (filtered_capture _ _ _ _ _ _ _ _ Himgs Hs He) as Hrange.
  apply Forall_lookup. intros i date Hdate.
  destruct (lookup_lt_is_Some_2 imgs i) as [d Hd];
    [rewrite <- Hlen; by apply lookup_lt_Some in Hdate |].
  destruct (Hrows i d Hd) as (date' & _ & Hdate' & _ & (ms & _ & Hms & -> & _) & _).
  rewrite Hdate in Hdate'. injection Hdate' as ->.
  destruct (proj1 (Forall_lookup _ _) Hrange i d Hd) as (ms' & Hms' & Hin).
  rewrite Hms in Hms'. injection Hms' as <-.
  eexists. split; [reflexivity |]. by apply day_stamp_range.
Qed.

(** When no image passes the filters the extractor raises nothing: it
    returns the table without rows, indexed by Date and with the empty
    column EVI. *)
Theorem extractor_empty_collection (w : World)
    (collection_name start_date end_date : string) (aoi : Geometry) :
  filtered w collection_name start_date end_date aoi = Val [] ->
  (calculate_time_series_EVI collection_name start_date end_date aoi w).1 = Ok empty_table.
Proof. intros Hempty. rewrite extractor_run, Hempty. reflexivity. Qed.

End extractor_edges.

Section extractor_values.
Context `{Engine}.

Lemma evi_handle_bands (d : ImageData) (b r n : Raster) :
  index_bands d b r n ->
  evi_handle (Val d)
  = Val {| bands := [("EVI", evi_raster b r n)];
           properties :=
             <["system:time_start" := default PNone (properties d !! "system:time_start")]>
               (expression_properties (properties d));
           footprint := footprint d |}.
Proof.
  intros (Hb & Hr & Hn). pose proof (evi_handle_cases d) as Hcases.
  by rewrite Hb, Hr, Hn in Hcases.
Qed.

Lemma evi_handle_missing (d : ImageData) :
  EE.find_band "B2" (bands d) = None
  \/ EE.find_band "B4" (bands d) = None
  \/ EE.find_band "B8" (bands d) = None ->
  exists msg, evi_handle (Val d) = Err msg.
Proof.
  intros Hmissing. pose proof (evi_handle_cases d) as Hcases.
  destruct (EE.find_band "B2" (bands d)), (EE.find_band "B4" (bands d)),
    (EE.find_band "B8" (bands d)); try done.
  by destruct Hmissing as [|[|]].
Qed.

Lemma evi_mean_bands (aoi : Geometry) (d : ImageData) (b r n : Raster) :
  index_bands d b r n ->
  evi_mean aoi d = Val (pyval_of (region_reduce RMean (evi_raster b r n) aoi 30)).
Proof.
  intros Hbands. unfold evi_mean. rewrite (evi_handle_bands d b r n Hbands).
  by rewrite (evi_band_mean aoi _ (evi_raster b r n)).
Qed.

(** [calc_evi] never raises: the three logical names it passes to the Band
    Selector are valid.  Where the EVI image can be computed, it has the one
    band EVI, made of the bands B2, B4 and B8 of the source image in the
    roles of blue, red and near infrared, and it carries the capture time
    and the footprint of the source image. *)
Theorem calc_evi_image (image : Image) :
  exists evi,
    calc_evi image = Ok evi
    /\ forall d e, image = Val d -> evi = Val e ->
         (exists r, bands e = [("EVI", r)])
         /\ EE.get evi "system:time_start" = EE.get image "system:time_start"
         /\ footprint e = footprint d
         /\ exists b r n, index_bands d b r n /\ bands e = [("EVI", evi_raster b r n)].
Proof.
  exists (evi_handle image). split; [reflexivity |].
  intros d e -> He. destruct (evi_handle_Val d e He) as [Hband Htime].
  split; [done |].
  split; [rewrite He; unfold EE.get; cbn [mbind computed_bind]; by rewrite Htime |].
  pose proof (evi_handle_cases d) as Hcases.
  destruct (EE.find_band "B2" (bands d)) as [b|] eqn:Hb;
    destruct (EE.find_band "B4" (bands d)) as [r|] eqn:Hr;
    destruct (EE.find_band "B8" (bands d)) as [n|] eqn:Hn;
    try (match type of Hcases with
         | ex _ => destruct Hcases as [msg Hcases]; rewrite He in Hcases; discriminate
         end).
  rewrite He in Hcases. injection Hcases as ->.
  split; [reflexivity |]. by exists b, r, n.
Qed.

(** When an image of the filtered collection lacks one of the bands B2,
    B4, B8, the call returns no table: the error of the service comes back
    as an [EEException]. *)
Theorem extractor_missing_band (w : World)
    (collection_name start_date end_date : string) (aoi : Geometry)
    (imgs : list ImageData) (d : ImageData) :
  filtered w collection_name start_date end_date aoi = Val imgs ->
  d ∈ imgs ->
  EE.find_band "B2" (bands d) = None
  \/ EE.find_band "B4" (bands d) = None
  \/ EE.find_band "B8" (bands d) = None ->
  exists msg,
    (calculate_time_series_EVI collection_name start_date end_date aoi w).1
      = Raise (EEException msg).
Proof.
  intros Himgs Hd Hmissing. rewrite extractor_run, Himgs. cbn [fst].
  destruct (features_of aoi (Val imgs)) as [feats|msg] eqn:Hfeats; [| by exists msg].
  apply features_of_Val in Hfeats as (evis & Hevis & _).
  apply list_elem_of_lookup in Hd as [i Hd].
  destruct (Forall2_lookup_l _ _ _ _ _ Hevis Hd) as (e & _ & He).
  destruct (evi_handle_missing d Hmissing) as [msg Herr].
  rewrite Herr in He. discriminate.
Qed.

End extractor_values.

Section extractor_success.
Context `{Engine}.

(** The extractor returns a table, with one row per image, whenever the
    service can filter the collection, pandas can read the start and end
    dates, and every filtered image has the bands B2, B4, B8 and a mean
    that reaches the client. *)
Theorem extractor_succeeds (w : World)
    (collection_name start_date end_date : string) (aoi : Geometry)
    (imgs : list ImageData) (a b : Z) :
  filtered w collection_name start_date end_date aoi = Val imgs ->
  pd.to_datetime1 (PStr start_date) = Ok (Stamp a) ->
  pd.to_datetime1 (PStr end_date) = Ok (Stamp b) ->
  Forall (ready aoi) imgs ->
  exists table,
    (calculate_time_series_EVI collection_name start_date end_date aoi w).1 = Ok table
    /\ length (index table) = length imgs.
Proof.
  intros Himgs (day_s & Hs & -> & Hbs)%to_datetime_date_of
    (day_e & He & -> & Hbe)%to_datetime_date_of Hready.
  pose proof (filtered_capture _ _ _ _ _ _ _ _ Himgs Hs He) as Hrange.
  assert (Hall : Forall (tabulated aoi) imgs).
  { apply Forall_forall. intros d Hd.
    destruct (proj1 (Forall_forall _ _) Hrange d Hd) as (ms & Hms & Hin).
    destruct (proj1 (Forall_forall _ _) Hready d Hd) as (rb & rr & rn & Hbands & Hsent).
    exists ms, (pyval_of (region_reduce RMean (evi_raster rb rr rn) aoi 30)).
    split; [done |]. split; [| split; [by apply evi_mean_bands |]].
    - apply day_stamp_range in Hin. unfold pd.in_bounds in *.
      apply andb_true_iff in Hbs as [Hlo%Z.ltb_lt _].
      apply andb_true_iff in Hbe as [_ Hhi%Z.ltb_lt].
      apply andb_true_iff. split; apply Z.ltb_lt; lia.
    - unfold EE.transmitted. cbn [snd].
      destruct (region_reduce RMean (evi_raster rb rr rn) aoi 30); [done |].
      cbn [pyval_of]. by destruct Hsent. }
  destruct (extractor_total w _ _ _ aoi imgs Himgs Hall) as [table Hrun].
  exists table. split; [done |].
  destruct (extractor_table _ _ _ _ _ _ Hrun) as (imgs' & _ & Himgs' & _ & _ & Hlen & _).
  rewrite Himgs in Himgs'. by injection Himgs' as <-.
Qed.

End extractor_success.

(** ** The order of the failures *)

Lemma mapM_cases {A B} (f : A -> pyresult B) (e0 : exn) (l : list A) :
  Forall (fun a => (exists b, f a = Ok b) \/ f a = Raise e0) l ->
  (exists l', mapM (M := pyresult) f l = Ok l') \/ mapM (M := pyresult) f l = Raise e0.
Proof.
  induction 1 as [|a l [[b Hb] | Hraise] _ IH]; cbn [mapM].
  - left. by exists [].
  - rewrite Hb. cbn [mbind pyresult_bind].
    destruct IH as [[l' ->] | ->]; [left; by eexists | by right].
  - rewrite Hraise. by right.
Qed.

Lemma subscript_Ok (props : gmap string pyval) (key : string) (v : pyval) :
  subscript props key = Ok v <-> props !! key = Some v.
Proof. unfold subscript. destruct (props !! key); split; congruence. Qed.

Lemma mapM_subscript_cases (key : string) (fs : list FeatureInfo) :
  (exists values, mapM (M := pyresult) (fun f => subscript (f_properties f) key) fs = Ok values)
  \/ mapM (M := pyresult) (fun f => subscript (f_properties f) key) fs = Raise (KeyError key).
Proof.
  apply mapM_cases, Forall_forall. intros f _. unfold subscript.
  destruct (f_properties f !! key); [left; by eexists | by right].
Qed.

Lemma mapM_subscript_present (key : string) (fs : list FeatureInfo) :
  Forall (fun f => is_Some (f_properties f !! key)) fs ->
  exists values, mapM (M := pyresult) (fun f => subscript (f_properties f) key) fs = Ok values.
Proof.
  induction 1 as [|f fs [v Hv] _ [values IH]]; [by exists [] |].
  exists (v :: values). cbn [mapM]. rewrite IH. unfold subscript at 1. by rewrite Hv.
Qed.

(** The table builder reads all the dates before any value: a feature
    without date makes it raise [KeyError('date')] whatever the values
    are, and when every feature has a date, a feature without EVI makes it
    raise [KeyError('EVI')] whatever the dates are. *)
Theorem time_series_key_errors (features : list FeatureInfo) :
  (Exists (fun f => f_properties f !! "date" = None) features ->
   time_series_of_features features = Raise (KeyError "date"))
  /\ (Forall (fun f => is_Some (f_properties f !! "date")) features ->
      Exists (fun f => f_properties f !! "EVI" = None) features ->
      time_series_of_features features = Raise (KeyError "EVI")).
Proof.
  unfold time_series_of_features. split.
  - intros Hmissing. by rewrite (mapM_subscript_missing "date" features Hmissing).
  - intros Hdates Hmissing.
    destruct (mapM_subscript_present "date" features Hdates) as [dates ->].
    cbn [mbind pyresult_bind].
    by rewrite (mapM_subscript_missing "EVI" features Hmissing).
Qed.

Section extractor_failures.
Context `{Engine}.

Lemma features_of_shape (aoi : Geometry) (imgs : list ImageData) (feats : list FeatureData) :
  features_of aoi (Val imgs) = Val feats -> Forall day_feature feats.
Proof.
  intros (evis & Hevis & Hfeats)%features_of_Val.
  apply Forall_lookup. intros i f Hf.
  destruct (Forall2_lookup_r _ _ _ _ _ Hfeats Hf) as (e & He & Hfeat).
  destruct (Forall2_lookup_r _ _ _ _ _ Hevis He) as (d & _ & Hevi).
  destruct (proj1 (image_feature aoi d f) (ex_intro _ e (conj Hevi Hfeat)))
    as (ms & v & _ & Hy & _ & ->).
  by exists ms, v.
Qed.

(** The table of features of that shape: the only failures are the
    missing mean and the day pandas cannot hold. *)
Lemma day_features_table (feats : list FeatureData) :
  Forall day_feature feats ->
  (exists table, time_series_of_features (ee.feature_info <$> feats) = Ok table)
  \/ (time_series_of_features (ee.feature_info <$> feats) = Raise (KeyError "EVI")
      /\ null_properties = false)
  \/ time_series_of_features (ee.feature_info <$> feats) = Raise out_of_bounds.
Proof.
  intros Hshape.
  assert (Hdates : exists dates,
            Forall2 (fun f v => f_properties f !! "date" = Some v)
              (ee.feature_info <$> feats) dates
            /\ Forall (fun v => exists ms, 0 <= year_of_millis ms <= 9999
                                          /\ v = PStr (day_text ms)) dates).
  { induction Hshape as [|f feats (ms & v & Hy & ->) _ (dates & IH1 & IH2)].
    - exists []. split; constructor.
    - exists (PStr (day_text ms) :: dates). split; constructor; try done.
      + apply (proj1 (transmitted_lookup (day_text ms) v)).
      + by exists ms. }
  destruct Hdates as (dates & Hdates & Htexts).
  assert (Hstamps : (exists stamps, Forall2 (fun v t => pd.to_datetime1 v = Ok t) dates stamps)
                    \/ pd.to_datetime dates = Raise out_of_bounds).
  { unfold pd.to_datetime.
    destruct (mapM_cases (fun v => t ← pd.to_datetime1 v; Ok (STime t)) out_of_bounds dates)
      as [[idx Hidx] | Hraise].
    - apply Forall_forall. intros v Hv.
      destruct (proj1 (Forall_forall _ _) Htexts v Hv) as (ms & Hy & ->).
      rewrite (to_datetime_day ms Hy). unfold pd.stamp.
      destruct (pd.in_bounds _); [left; by eexists | by right].
    - left. apply to_datetime_Ok in Hidx as (stamps & _ & Hstamps). by exists stamps.
    - by right. }
  assert (Hrun_dates : mapM (M := pyresult) (fun f => subscript (f_properties f) "date")
                         (ee.feature_info <$> feats) = Ok dates).
  { apply mapM_Ok. eapply Forall2_impl; [exact Hdates |].
    intros f v Hv. by apply subscript_Ok. }
  destruct (mapM_subscript_cases "EVI" (ee.feature_info <$> feats))
    as [[values Hvalues] | Hraise].
  - destruct Hstamps as [[stamps Hstamps] | Hraise].
    + left. eexists. apply time_series_of_features_Ok. exists dates, values, stamps.
      split; [done | split; [| split; [done | reflexivity]]].
      apply mapM_Ok in Hvalues. eapply Forall2_impl; [exact Hvalues |].
      intros f v Hv. by apply subscript_Ok.
    + right. right. unfold time_series_of_features.
      rewrite Hrun_dates. cbn [mbind pyresult_bind].
      rewrite Hvalues. cbn [mbind pyresult_bind]. by rewrite Hraise.
  - right. left. split.
    + unfold time_series_of_features. rewrite Hrun_dates. cbn [mbind pyresult_bind].
      by rewrite Hraise.
    + destruct null_properties eqn:Hnulls; [| done].
      destruct (mapM_subscript_present "EVI" (ee.feature_info <$> feats)) as [values Hvalues].
      * apply Forall_fmap, Forall_forall. intros f Hf.
        destruct (proj1 (Forall_forall _ _) Hshape f Hf) as (ms & v & _ & ->).
        cbn [compose ee.feature_info f_properties feature_properties].
        rewrite (proj2 (transmitted_lookup (day_text ms) v)).
        unfold EE.transmitted. cbn [snd]. rewrite Hnulls. by destruct v.
      * rewrite Hvalues in Hraise. discriminate.
Qed.

(** When the extractor raises a [KeyError], the key is EVI and the service
    is one that leaves a mean without data out of the feature: the keys
    features, properties and date are always found.  And whatever it
    raises, it is never the unsupported-index error of the Band Selector,
    whose three calls pass the literal names BLUE, RED and NIR. *)
Theorem extractor_failures (w : World)
    (collection_name start_date end_date : string) (aoi : Geometry) (e : exn) :
  (calculate_time_series_EVI collection_name start_date end_date aoi w).1 = Raise e ->
  (forall key, e = KeyError key -> key = "EVI" /\ null_properties = false)
  /\ e <> unsupported_index.
Proof.
  intros Hrun.
  assert (Hcases : (exists msg, e = EEException msg)
                   \/ (e = KeyError "EVI" /\ null_properties = false)
                   \/ e = out_of_bounds).
  { revert Hrun. rewrite extractor_run. cbn [fst].
    destruct (filtered w collection_name start_date end_date aoi) as [imgs|msg].
    2: { unfold features_of. cbn [mbind computed_bind]. intros [= <-]. left. by exists msg. }
    destruct (features_of aoi (Val imgs)) as [feats|msg] eqn:Hfeats.
    2: { intros [= <-]. left. by exists msg. }
    destruct (day_features_table feats (features_of_shape aoi imgs feats Hfeats))
      as [[table ->] | [[-> Hnulls] | ->]].
    - discriminate.
    - intros [= <-]. right. by left.
    - intros [= <-]. right. by right. }
  split.
  - intros key ->.
    destruct Hcases as [[msg Hmsg] | [[Hkey Hnulls] | Hbounds]].
    + discriminate.
    + injection Hkey as ->. by split.
    + discriminate.
  - by destruct Hcases as [[msg ->] | [[-> _] | ->]].
Qed.

End extractor_failures.

(** * Plotter *)

Lemma getitem_missing (cols : list (string * list scalar)) (key : string) :
  Forall (fun col => col.1 <> key) cols -> getitem cols key = Raise (KeyError key).
Proof.
  induction 1 as [|[k c] cols Hk _ IH]; [done |].
  cbn [getitem]. cbn [fst] in Hk. by destruct (decide (k = key)).
Qed.

Section plotter.
Context `{Engine}.

(** The Plotter never fails on a table the extractor returned: it opens a
    figure of 10 by 5, draws one line with a marker per row, the dates
    against the EVI values in the order of the table, labels the axes,
    sets the title and the grid, and shows the figure. *)
Theorem plot_after_extractor (w : World)
    (collection_name start_date end_date : string) (aoi : Geometry)
    (table : DataFrame) (calls : list plt_call) :
  (calculate_time_series_EVI collection_name start_date end_date aoi w).1 = Ok table ->
  exists values,
    columns table = [("EVI", values)]
    /\ length values = length (index table)
    /\ plot_time_series_EVI table calls
       = (Ok tt,
          (calls ++ [ PltFigure 10 5;
                      PltPlot (index table) values "o" "-" "b";
                      PltXlabel "Date"; PltYlabel "EVI";
                      PltTitle "Time Series of EVI";
                      PltGrid true; PltShow ])%list).
Proof.
  intros Hrun.
  destruct (extractor_table _ _ _ _ _ _ Hrun)
    as (imgs & values & _ & _ & Hcols & Hlen & Hlen' & _).
  exists values. split; [done | split; [congruence |]].
  unfold plot_time_series_EVI, mbind, Plot_bind, plt.figure, plt.plot, plt.xlabel,
    plt.ylabel, plt.title, plt.grid, plt.show, plt.call.
  rewrite Hcols. cbn [getitem]. rewrite decide_True by done.
  by rewrite <- !app_assoc.
Qed.

End plotter.

(** On a table without a column EVI the Plotter raises [KeyError('EVI')]
    after it has opened the figure: nothing is drawn or shown. *)
Theorem plot_missing_column (time_series : DataFrame) (calls : list plt_call) :
  Forall (fun col => col.1 <> "EVI") (columns time_series) ->
  plot_time_series_EVI time_series calls
  = (Raise (KeyError "EVI"), (calls ++ [PltFigure 10 5])%list).
Proof.
  intros Hcols.
  unfold plot_time_series_EVI, mbind, Plot_bind, plt.figure, plt.call.
  by rewrite (getitem_missing _ _ Hcols).
Qed.

(** * Band Selector, applied twice *)

Section band_selector_twice.
Context `{Engine}.

(** Selecting the same logical band again changes nothing; selecting
    another logical band from an image already restricted to one yields a
    handle the service cannot compute, since no two logical names share a
    physical band. *)
Theorem select_bands_twice (d : ImageData) (r : Raster) (name name' band band' : string) :
  (name, band) ∈ physical_bands ->
  (name', band') ∈ physical_bands ->
  EE.find_band band (bands d) = Some r ->
  exists once,
    select_bands (Val d) name = Ok (Val once)
    /\ bands once = [(band, r)]
    /\ (name' = name -> select_bands (Val once) name' = Ok (Val once))
    /\ (name' <> name -> exists msg, select_bands (Val once) name' = Ok (Err msg)).
Proof.
  unfold physical_bands. rewrite !elem_of_cons, !elem_of_nil.
  intros Hname Hname' Hband.
  exists {| bands := [(band, r)]; properties := properties d; footprint := footprint d |}.
  assert (Hsel : forall image, select_bands image name = Ok (EE.select image band)).
  { intros image. unfold select_bands. rewrite band_mapping_lookup.
    by destruct Hname as [[= -> ->] | [[= -> ->] | [[= -> ->] | [[= -> ->] | []]]]]. }
  split; [| split; [reflexivity | split]].
  - rewrite Hsel. unfold EE.select. cbn [mbind computed_bind]. by rewrite Hband.
  - intros ->. rewrite Hsel. unfold EE.select. cbn [mbind computed_bind bands EE.find_band].
    by rewrite decide_True.
  - intros Hne. unfold select_bands. rewrite band_mapping_lookup.
    destruct Hname as [[= -> ->] | [[= -> ->] | [[= -> ->] | [[= -> ->] | []]]]];
      destruct Hname' as [[= -> ->] | [[= -> ->] | [[= -> ->] | [[= -> ->] | []]]]];
      try done; eexists; reflexivity.
Qed.

End band_selector_twice.

(** ** The further properties on the in-memory engine *)

Lemma extractor_dates_in_range_witness :
  let w := Fake.world true [clear_june_1 true; clear_june_2 true] in
  exists table,
    (calculate_time_series_EVI "TEST/S2" "2023-06-01" "2023-06-03" Fake.unit_square w).1
      = Ok table
    /\ Forall (fun date => exists ns, date = STime (Stamp ns)
                 /\ 1685577600000000000 <= ns < 1685750400000000000) (index table).
Proof.
  intros w. eexists.
  assert (Hrun : (calculate_time_series_EVI "TEST/S2" "2023-06-01" "2023-06-03"
                    Fake.unit_square w).1 = Ok _) by (vm_compute; reflexivity).
  split; [exact Hrun |].
  exact (extractor_dates_in_range w _ _ _ _ _ _ _ Hrun eq_refl eq_refl).
Defined.

Lemma extractor_empty_collection_witness :
  let w := Fake.world true [clear_june_1 true] in
  filtered w "TEST/S2" "2023-07-01" "2023-07-03" Fake.unit_square = Val []
  /\ (calculate_time_series_EVI "TEST/S2" "2023-07-01" "2023-07-03" Fake.unit_square w).1
     = Ok empty_table.
Proof.
  intros w.
  assert (Hempty : filtered w "TEST/S2" "2023-07-01" "2023-07-03" Fake.unit_square = Val [])
    by (vm_compute; reflexivity).
  split; [exact Hempty | exact (extractor_empty_collection w _ _ _ _ Hempty)].
Defined.

Lemma calc_evi_image_witness :
  let image : Image := Val (clear_june_2 true) in
  exists evi e,
    calc_evi image = Ok evi /\ evi = Val e
    /\ (exists r, bands e = [("EVI", r)])
    /\ EE.get evi "system:time_start" = EE.get image "system:time_start".
Proof.
  intros image. destruct (calc_evi_image image) as (evi & Hcalc & Hprops).
  assert (Hval : exists e, evi = Val e).
  { assert (Hhandle : calc_evi image = Ok (evi_handle image)) by reflexivity.
    rewrite Hcalc in Hhandle. injection Hhandle as ->. eexists. vm_compute. reflexivity. }
  destruct Hval as [e He]. exists evi, e.
  destruct (Hprops _ e eq_refl He) as (Hband & Htime & _).
  split; [exact Hcalc | split; [exact He | split; [exact Hband | exact Htime]]].
Defined.

Lemma extractor_missing_band_witness :
  let w := Fake.world true [no_nir_june_1 true] in
  exists msg,
    (calculate_time_series_EVI "TEST/S2" "2023-06-01" "2023-06-03" Fake.unit_square w).1
      = Raise (EEException msg).
Proof.
  intros w.
  assert (Himgs : filtered w "TEST/S2" "2023-06-01" "2023-06-03" Fake.unit_square
                  = Val [no_nir_june_1 true]) by (vm_compute; reflexivity).
  exact (extractor_missing_band w _ _ _ _ _ (no_nir_june_1 true) Himgs
           (list_elem_of_here _ _) (or_intror (or_intror eq_refl))).
Defined.

Lemma extractor_succeeds_witness :
  let w := Fake.world true [clear_june_1 true; masked_june_1 true] in
  exists table,
    (calculate_time_series_EVI "TEST/S2" "2023-06-01" "2023-06-03" Fake.unit_square w).1
      = Ok table
    /\ length (index table) = 2%nat.
Proof.
  intros w.
  assert (Himgs : filtered w "TEST/S2" "2023-06-01" "2023-06-03" Fake.unit_square
                  = Val [clear_june_1 true; masked_june_1 true])
    by (vm_compute; reflexivity).
  assert (Hready : Forall (ready Fake.unit_square) [clear_june_1 true; masked_june_1 true]).
  { repeat constructor; eexists _, _, _;
      (split; [split; [| split]; reflexivity | left; reflexivity]). }
  exact (extractor_succeeds w _ _ _ _ _ _ _ Himgs eq_refl eq_refl Hready).
Defined.

Lemma time_series_key_errors_witness :
  let undated := {| f_type := "Feature"; f_properties := {[ "EVI" := PNum 1 ]} |} in
  time_series_of_features [undated] = Raise (KeyError "date").
Proof.
  intros undated.
  assert (Hmissing : Exists (fun f => f_properties f !! "date" = None) [undated])
    by (apply Exists_cons_hd; reflexivity).
  exact (proj1 (time_series_key_errors [undated]) Hmissing).
Defined.

Lemma extractor_failures_witness :
  let w := Fake.world false [masked_june_1 false] in
  (calculate_time_series_EVI (H := Fake.engine_with false)
     "TEST/S2" "2023-06-01" "2023-06-03" Fake.unit_square w).1 = Raise (KeyError "EVI")
  /\ (forall key, KeyError "EVI" = KeyError key ->
        key = "EVI" /\ @null_properties (Fake.engine_with false) = false)
  /\ KeyError "EVI" <> unsupported_index.
Proof.
  intros w.
  assert (Hrun : (calculate_time_series_EVI (H := Fake.engine_with false)
                    "TEST/S2" "2023-06-01" "2023-06-03" Fake.unit_square w).1
                 = Raise (KeyError "EVI")) by (vm_compute; reflexivity).
  split; [exact Hrun |].
  exact (extractor_failures (H := Fake.engine_with false) w _ _ _ _ _ Hrun).
Defined.

Lemma plot_after_extractor_witness :
  let w := Fake.world true [clear_june_1 true] in
  exists table values,
    (calculate_time_series_EVI "TEST/S2" "2023-06-01" "2023-06-03" Fake.unit_square w).1
      = Ok table
    /\ plot_time_series_EVI table []
       = (Ok tt,
          [ PltFigure 10 5; PltPlot (index table) values "o" "-" "b";
            PltXlabel "Date"; PltYlabel "EVI"; PltTitle "Time Series of EVI";
            PltGrid true; PltShow ]).
Proof.
  intros w. eexists.
  assert (Hrun : (calculate_time_series_EVI "TEST/S2" "2023-06-01" "2023-06-03"
                    Fake.unit_square w).1 = Ok _) by (vm_compute; reflexivity).
  destruct (plot_after_extractor w _ _ _ _ _ [] Hrun) as (values & _ & _ & Hplot).
  exists values. split; [exact Hrun | exact Hplot].
Defined.

Lemma plot_missing_column_witness :
  let table := {| index_name := None; index := []; columns := [("NDVI", [])] |} in
  plot_time_series_EVI table [] = (Raise (KeyError "EVI"), [PltFigure 10 5]).
Proof.
  intros table.
  assert (Hcols : Forall (fun col : string * list scalar => col.1 <> "EVI") (columns table))
    by (repeat constructor; discriminate).
  exact (plot_missing_column table [] Hcols).
Defined.

Lemma select_bands_twice_witness :
  let d := clear_june_2 true in
  exists once,
    select_bands (Val d) "RED" = Ok (Val once)
    /\ select_bands (Val once) "RED" = Ok (Val once)
    /\ exists msg, select_bands (Val once) "NIR" = Ok (Err msg).
Proof.
  intros d.
  assert (Hred : ("RED", "B4") ∈ physical_bands)
    by (apply (bool_decide_unpack _); vm_compute; exact I).
  assert (Hnir : ("NIR", "B8") ∈ physical_bands)
    by (apply (bool_decide_unpack _); vm_compute; exact I).
  destruct (select_bands_twice d (fun _ => Some 0.3%Q) "RED" "RED" "B4" "B4" Hred Hred eq_refl)
    as (once & Hsel & Hbands & Hsame & _).
  destruct (select_bands_twice d (fun _ => Some 0.3%Q) "RED" "NIR" "B4" "B8" Hred Hnir eq_refl)
    as (once' & Hsel' & _ & _ & Hother).
  rewrite Hsel in Hsel'. injection Hsel' as <-.
  exists once. split; [exact Hsel | split; [exact (Hsame eq_refl) |]].
  apply Hother. discriminate.
Defined.
